(** * autolysis.py: a shallow embedding and its verified properties

    The script is one linear pipeline: a module-level token check, a
    command-line check, and [analyze_csv], which loads a CSV file, profiles it,
    draws up to three plots, asks a remote completion service for a narrative
    and writes [README.md].

    Everything the script does is a call into a library (pandas, seaborn,
    matplotlib, requests, the file system).  The embedding keeps the control
    flow of the source (its [try]/[except] blocks, [sys.exit] calls and the
    order of the statements) and takes the answers of the libraries from a
    [World] record, one field per kind of call.

    What the embedding takes for granted:
    - an exception raised by a library call derives from [Exception];
    - f-strings and [list.append] do not raise;
    - [os.path] is [posixpath];
    - a [str] is held as its UTF-8 encoding, so it has no lone surrogate; the
      script cuts strings at ['/'] and ['.'] only, where bytes and characters
      agree, and [str.strip] removes the encodings of the characters that
      [str.isspace] accepts;
    - [plt.savefig] writes the whole file or nothing;
    - standard output takes every line, so [print] does not raise;
    - a failed [f.write] or a failed close of [README.md] leaves in the file
      the beginning of the text handed over so far, cut wherever the [World]
      says. *)

From Stdlib Require Import ZArith Ascii String List Lia.
From stdpp Require Import base strings gmap list pretty.

Local Open Scope Z_scope.

(** ** Strings as Python uses them here *)

Module PyStr.

Definition nl : string := String "010"%char EmptyString.

Fixpoint contains (c : ascii) (s : string) : bool :=
  match s with
  | EmptyString => false
  | String a t => if Ascii.eqb a c then true else contains c t
  end.

(** [s.rfind(c)] for a one-character needle: the highest index holding [c],
    or [-1].  [i] is the index of the first character of [s]. *)
Fixpoint rfind_from (c : ascii) (s : string) (i : Z) : Z :=
  match s with
  | EmptyString => -1
  | String a t =>
      let r := rfind_from c t (i + 1) in
      if 0 <=? r then r else if Ascii.eqb a c then i else -1
  end.

Definition rfind (c : ascii) (s : string) : Z := rfind_from c s 0.

(** [s[n:]] and [s[:n]] for [0 <= n]. *)
Fixpoint drop (n : nat) (s : string) : string :=
  match n, s with
  | O, _ => s
  | S _, EmptyString => EmptyString
  | S k, String _ t => drop k t
  end.

Fixpoint take (n : nat) (s : string) : string :=
  match n, s with
  | O, _ => EmptyString
  | S _, EmptyString => EmptyString
  | S k, String a t => String a (take k t)
  end.

(** [s[i:i+1]] *)
Definition char_at (i : nat) (s : string) : string := take 1 (drop i s).

(** [s[::-1]] *)
Fixpoint rev_onto (s acc : string) : string :=
  match s with
  | EmptyString => acc
  | String a t => rev_onto t (String a acc)
  end.

Definition rev (s : string) : string := rev_onto s EmptyString.

(** A [str] is held as its UTF-8 encoding: one to three bytes for a code
    point below 65536. *)
Definition utf8 (cp : N) : string :=
  let byte n := String (ascii_of_N n) EmptyString in
  (if cp <? 128 then byte cp
   else if cp <? 2048 then byte (192 + cp / 64) +:+ byte (128 + cp mod 64)
   else byte (224 + cp / 4096) +:+ byte (128 + (cp / 64) mod 64) +:+
        byte (128 + cp mod 64))%N.

(** The code points that [str.isspace] accepts, which are the ones that
    [str.strip()] removes: CPython's [_PyUnicode_IsWhitespace]. *)
Definition whitespace : list N :=
  [ 9; 10; 11; 12; 13; 28; 29; 30; 31; 32;   (* U+0009-000D, U+001C-0020 *)
    133; 160;                                (* U+0085, U+00A0 *)
    5760;                                    (* U+1680 *)
    8192; 8193; 8194; 8195; 8196; 8197; 8198; 8199; 8200; 8201; 8202;
                                             (* U+2000-200A *)
    8232; 8233; 8239; 8287;                  (* U+2028, U+2029, U+202F, U+205F *)
    12288 ]%N.                               (* U+3000 *)

(** [ch.isspace()] for the encoding [ch] of one character. *)
Definition isspace (ch : string) : bool :=
  existsb (fun cp => String.eqb ch (utf8 cp)) whitespace.

(** Removes the leading characters that [space] accepts, looking at the one,
    two or three bytes that encode the first character. *)
Fixpoint lstrip_by (space : string -> bool) (s : string) : string :=
  match s with
  | EmptyString => EmptyString
  | String a t =>
      if space (String a EmptyString) then lstrip_by space t
      else
        match t with
        | EmptyString => s
        | String b t2 =>
            if space (String a (String b EmptyString)) then lstrip_by space t2
            else
              match t2 with
              | EmptyString => s
              | String c t3 =>
                  if space (String a (String b (String c EmptyString)))
                  then lstrip_by space t3
                  else s
              end
        end
  end.

Definition lstrip (s : string) : string := lstrip_by isspace s.

(** The same from the right end: the bytes of the last character come in
    reverse order. *)
Definition rstrip (s : string) : string :=
  rev (lstrip_by (fun ch => isspace (rev ch)) (rev s)).

(** [s.strip()] *)
Definition strip (s : string) : string := rstrip (lstrip s).

(** Truthiness of [os.getenv(...)]: [None] and the empty string are falsy. *)
Definition truthy (o : option string) : bool :=
  match o with
  | Some (String _ _) => true
  | _ => false
  end.

(** [str(x)] of an optional string, as an f-string renders it. *)
Definition str_opt (o : option string) : string :=
  match o with
  | Some s => s
  | None => "None"
  end.

End PyStr.

(** ** [os.path] on POSIX: [basename] and [splitext] *)

Module PosixPath.
Import PyStr.

Definition sep : ascii := "/"%char.
Definition extsep : ascii := "."%char.

(** [i = p.rfind('/') + 1; return p[i:]] *)
Definition basename (p : string) : string :=
  let i := rfind sep p + 1 in
  drop (Z.to_nat i) p.

(** The loop of [genericpath._splitext] that skips leading dots,
    [while filenameIndex < dotIndex]; [n] is [dotIndex - filenameIndex], the
    number of indices still to look at, so the loop is left when [n] is 0. *)
Fixpoint splitext_loop (n : nat) (p : string) (filenameIndex dotIndex : Z)
  : string * string :=
  match n with
  | O => (p, take 0 p)
  | S k =>
      if negb (String.eqb (char_at (Z.to_nat filenameIndex) p)
                          (String extsep EmptyString))
      then (take (Z.to_nat dotIndex) p, drop (Z.to_nat dotIndex) p)
      else splitext_loop k p (filenameIndex + 1) dotIndex
  end.

Definition splitext (p : string) : string * string :=
  let sepIndex := rfind sep p in
  let dotIndex := rfind extsep p in
  if sepIndex <? dotIndex then
    splitext_loop (Z.to_nat (dotIndex - (sepIndex + 1))) p (sepIndex + 1) dotIndex
  else (p, take 0 p).

End PosixPath.


Import PyStr PosixPath.

(** ** Exceptions, outcomes and the state of a run *)

(** Every exception a library call raises here derives from [Exception];
    the only class the script tells apart is [UnicodeDecodeError]. *)
Inductive exn_class := UnicodeDecodeError | OtherException.

Record exn := Exn { exn_cls : exn_class; exn_msg : string }.

Inductive result (A : Type) :=
| Returns (a : A)
| Raises (e : exn).
Arguments Returns {A} a.
Arguments Raises {A} e.

Inductive encoding := UTF8 | ISO_8859_1.

Inductive dtype := Float64 | Int64 | Bool | Object.

(** A table as far as the script looks at it: the number of rows and the
    named, typed columns. *)
Record DataFrame := { df_rows : nat; df_columns : list (string * dtype) }.

(** The result of [numeric_cols.corr()]; the script only passes it on. *)
Record CorrMatrix := { corr_id : nat }.

Inductive artifact := Correlation | MissingValues | Boxplot.

Record Request := {
  req_model : string;
  req_messages : list (string * string);
  req_max_tokens : Z
}.

(** A [requests.Response]: [resp_content] is what
    [response.json()['choices'][0]['message']['content']] evaluates to. *)
Record Response := {
  status_code : Z;
  resp_text : string;
  resp_content : result string
}.

Inductive event :=
| Print (line : string)
| ReadCsv (filename : string) (enc : encoding)
| SaveFig (filename : string) (saved : bool)
| HttpPost (url : string) (authorization : string) (body : Request)
| OpenW (filename : string) (opened : bool).

(** The state a run threads through: what happened so far, the files of the
    current directory, and the two locals of [analyze_csv] that are assigned
    inside [try] blocks and read after them. *)
Record State := {
  trace : list event;
  disk : gmap string string;
  image_paths : list string;
  correlation_matrix : option CorrMatrix
}.

Definition initial_state (files : gmap string string) : State :=
  {| trace := []; disk := files; image_paths := []; correlation_matrix := None |}.

(** How a computation ends: normally, with a Python exception, or with
    [SystemExit] (which [except Exception] does not catch). *)
Inductive outcome (A : Type) :=
| Ret (a : A)
| Raise (e : exn)
| SysExit (code : Z).
Arguments Ret {A} a.
Arguments Raise {A} e.
Arguments SysExit {A} code.

Definition M (A : Type) : Type := State -> State * outcome A.

Definition ret {A} (a : A) : M A := fun s => (s, Ret a).

Definition bind {A B} (m : M A) (k : A -> M B) : M B :=
  fun s =>
    match m s with
    | (s', Ret a) => k a s'
    | (s', Raise e) => (s', Raise e)
    | (s', SysExit c) => (s', SysExit c)
    end.

Declare Scope py_scope.
Delimit Scope py_scope with py.
Notation "x <- m ;; k" := (bind m (fun x => k))
  (at level 100, m at next level, right associativity) : py_scope.
Notation "m ;;; k" := (bind m (fun _ => k))
  (at level 100, right associativity) : py_scope.
Local Open Scope py_scope.

Definition raise {A} (e : exn) : M A := fun s => (s, Raise e).

Definition sys_exit {A} (code : Z) : M A := fun s => (s, SysExit code).

Definition lift {A} (r : result A) : M A :=
  match r with
  | Returns a => ret a
  | Raises e => raise e
  end.

(** [try: body / except Exception as e: handler e] *)
Definition try_except {A} (body : M A) (handler : exn -> M A) : M A :=
  fun s =>
    match body s with
    | (s', Raise e) => handler e s'
    | r => r
    end.

(** [try: body / except UnicodeDecodeError: handler] *)
Definition try_except_decode {A} (body : M A) (handler : M A) : M A :=
  fun s =>
    match body s with
    | (s', Raise (Exn UnicodeDecodeError msg)) => handler s'
    | r => r
    end.

(** The state after the events [evs] have happened. *)
Definition emit (s : State) (evs : list event) : State :=
  {| trace := trace s ++ evs; disk := disk s;
     image_paths := image_paths s;
     correlation_matrix := correlation_matrix s |}.

Definition log (e : event) : M unit := fun s => (emit s [e], Ret tt).

Definition print (line : string) : M unit := log (Print line).

Definition set_disk (d : gmap string string) : M unit :=
  fun s => ({| trace := trace s; disk := d;
               image_paths := image_paths s;
               correlation_matrix := correlation_matrix s |}, Ret tt).

Definition set_image_paths (l : list string) : M unit :=
  fun s => ({| trace := trace s; disk := disk s;
               image_paths := l;
               correlation_matrix := correlation_matrix s |}, Ret tt).

Definition set_correlation_matrix (c : option CorrMatrix) : M unit :=
  fun s => ({| trace := trace s; disk := disk s;
               image_paths := image_paths s;
               correlation_matrix := c |}, Ret tt).

Definition get {A} (f : State -> A) : M A := fun s => (s, Ret (f s)).

(** [for x in l: body x] *)
Fixpoint for_each {A} (l : list A) (body : A -> M unit) : M unit :=
  match l with
  | [] => ret tt
  | x :: l' => body x ;;; for_each l' body
  end.

(** The exit status of the interpreter: 0 when the script runs to its end,
    the argument of [sys.exit], and 1 for an uncaught exception. *)
Definition exit_status {A} (o : outcome A) : Z :=
  match o with
  | Ret _ => 0
  | Raise _ => 1
  | SysExit c => c
  end.

(** ** The world outside the script *)

(** One field per kind of library call.  A call that returns nothing useful
    has [result unit]. *)
Record World := {
  w_getenv : string -> option string;                 (* os.getenv *)
  w_argv : list string;                               (* sys.argv *)
  w_read_csv : string -> encoding -> result DataFrame;  (* pd.read_csv *)
  w_describe : DataFrame -> result string;   (* describe(include='all').to_dict() *)
  w_isnull_sum : DataFrame -> result string; (* isnull().sum().to_dict() *)
  w_figure : artifact -> result unit;                 (* plt.figure *)
  w_corr : DataFrame -> result CorrMatrix;            (* numeric_cols.corr() *)
  w_draw : artifact -> result unit;          (* sns.heatmap / sns.boxplot *)
  w_title : artifact -> result unit;                  (* plt.title *)
  w_savefig : string -> result string;       (* plt.savefig: the bytes saved *)
  w_close : artifact -> result unit;                  (* plt.close *)
  w_to_dict : CorrMatrix -> result string;   (* correlation_matrix.to_dict() *)
  w_post : string -> string -> Request -> result Response;  (* requests.post *)
  w_open : string -> result unit;                     (* open(path, "w") *)
  w_write : string -> string -> string -> result unit;
      (* f.write(data) on the file [path] that holds [content] so far *)
  w_write_partial : string -> string -> string -> nat;
      (* how much of [data] is in the file when that f.write raises *)
  w_fclose : string -> string -> result unit;         (* leaving the with block *)
  w_fclose_partial : string -> string -> nat
      (* how much of [content] is in the file when the close raises: the text
         is buffered, and a flush can fail part-way *)
}.

(** ** pandas, as far as the control flow depends on it *)

Definition is_numeric (t : dtype) : bool :=
  match t with
  | Float64 | Int64 => true
  | Bool | Object => false
  end.

(** [data.select_dtypes(include=['float64', 'int64'])] *)
Definition select_dtypes (data : DataFrame) : DataFrame :=
  {| df_rows := df_rows data;
     df_columns := List.filter (fun c => is_numeric (snd c)) (df_columns data) |}.

(** [df.empty]: some axis has length 0. *)
Definition empty (df : DataFrame) : bool :=
  (df_rows df =? 0)%nat || (length (df_columns df) =? 0)%nat.

(** ** The script *)

Definition url : string :=
  "https://aiproxy.sanand.workers.dev/openai/v1/chat/completions".

Definition indent : string := "        ".

(** The f-string of lines 103-121; [corr_text] is the value of the conditional
    expression on line 108. *)
Definition prompt_text (dataset_name summary missing_values corr_text : string)
  : string :=
  nl +:+
  indent +:+ "Below is the analysis summary for the dataset " +:+ dataset_name +:+ ":" +:+ nl +:+
  indent +:+ nl +:+
  indent +:+ "**Summary Statistics:** " +:+ summary +:+ nl +:+
  indent +:+ "**Missing Values:** " +:+ missing_values +:+ nl +:+
  indent +:+ "**Correlation Matrix:** " +:+ corr_text +:+ nl +:+
  nl +:+
  indent +:+ "**Key Visual Insights:**" +:+ nl +:+
  indent +:+ "1. **Correlation Heatmap**: Displays relationships between variables." +:+ nl +:+
  indent +:+ "2. **Missing Values Heatmap**: Highlights gaps in data." +:+ nl +:+
  indent +:+ "3. **Boxplot**: Identifies potential outliers and variable distributions." +:+ nl +:+
  nl +:+
  indent +:+ "Write a business-focused report based on these insights:" +:+ nl +:+
  indent +:+ "- Summarize key findings and any surprising trends." +:+ nl +:+
  indent +:+ "- Suggest specific actions or improvements based on patterns." +:+ nl +:+
  indent +:+ "- Explain how this data can guide strategic decisions or improvements." +:+ nl +:+
  indent +:+ nl +:+
  indent +:+ "Please format the response in Markdown style for easy presentation." +:+ nl +:+
  indent.

Definition correlation_image (dataset_name : string) : string :=
  dataset_name +:+ "_correlation_heatmap.png".
Definition missing_values_image (dataset_name : string) : string :=
  dataset_name +:+ "_missing_values_heatmap.png".
Definition boxplot_image (dataset_name : string) : string :=
  dataset_name +:+ "_boxplot.png".

Definition readme_path : string := "README.md".

(** Lines 124-131: the body of the completion request. *)
Definition data_for_api (prompt : string) : Request :=
  {| req_model := "gpt-4o-mini";
     req_messages := [("system", "You are a helpful assistant.");
                      ("user", prompt)];
     req_max_tokens := 1000 |}.

(** Line 161: one image-embed line. *)
Definition embed_line (img_path : string) : string :=
  "![" +:+ basename img_path +:+ "](" +:+ basename img_path +:+ ")" +:+ nl.

Section Script.

Variable w : World.

(** Line 21, module level. *)
Definition AIPROXY_TOKEN : option string := w_getenv w "AIPROXY_TOKEN".

Definition pd_read_csv (filename : string) (enc : encoding) : M DataFrame :=
  log (ReadCsv filename enc) ;;; lift (w_read_csv w filename enc).

Definition plt_savefig (filename : string) : M unit :=
  match w_savefig w filename with
  | Returns bytes =>
      log (SaveFig filename true) ;;;
      d <- get disk ;;
      set_disk (<[filename := bytes]> d)
  | Raises e => log (SaveFig filename false) ;;; raise e
  end.

Definition requests_post (authorization : string) (body : Request) : M Response :=
  log (HttpPost url authorization body) ;;; lift (w_post w url authorization body).

Definition file_content (path : string) : M string :=
  d <- get disk ;; ret (default EmptyString (d !! path)).

(** [open(path, "w")]: creates or truncates the file. *)
Definition open_w (path : string) : M unit :=
  match w_open w path with
  | Returns _ =>
      log (OpenW path true) ;;;
      d <- get disk ;;
      set_disk (<[path := EmptyString]> d)
  | Raises e => log (OpenW path false) ;;; raise e
  end.

(** [f.write(data)].  The file of the model holds what [f.write] has taken so
    far, flushed or not; a write that raises may have put the beginning of
    [data] into the file. *)
Definition f_write (path data : string) : M unit :=
  content <- file_content path ;;
  match w_write w path content data with
  | Returns _ =>
      d <- get disk ;;
      set_disk (<[path := content +:+ data]> d)
  | Raises e =>
      let n := w_write_partial w path content data in
      (d <- get disk ;;
       set_disk (<[path := content +:+ take n data]> d)) ;;;
      raise e
  end.

(** Closing flushes what is buffered.  A close that raises leaves the
    beginning of the text in the file. *)
Definition f_close (path : string) : M unit :=
  content <- file_content path ;;
  match w_fclose w path content with
  | Returns _ => ret tt
  | Raises e =>
      let n := w_fclose_partial w path content in
      (d <- get disk ;;
       set_disk (<[path := take n content]> d)) ;;;
      raise e
  end.

(** [with open(path, "w") as f: body]: the file is closed however the body
    ends, and an exception of the close replaces the body's. *)
Definition with_open_w (path : string) (body : M unit) : M unit :=
  open_w path ;;;
  fun s =>
    let (s1, o) := body s in
    match f_close path s1 with
    | (s2, Ret _) => (s2, o)
    | (s2, Raise e) => (s2, Raise e)
    | (s2, SysExit c) => (s2, SysExit c)
    end.

(** Lines 34-45. *)
Definition load_dataset (filename : string) : M DataFrame :=
  try_except_decode
    (data <- pd_read_csv filename UTF8 ;;
     print ("Successfully loaded dataset: " +:+ filename) ;;;
     ret data)
    (try_except
       (data <- pd_read_csv filename ISO_8859_1 ;;
        print ("Successfully loaded dataset with ISO-8859-1 encoding: " +:+ filename) ;;;
        ret data)
       (fun e =>
          print ("Error loading dataset: " +:+ exn_msg e) ;;;
          sys_exit 1)).

(** Lines 65-75. *)
Definition correlation_heatmap (dataset_name : string) (numeric_cols : DataFrame)
  : M unit :=
  try_except
    (lift (w_figure w Correlation) ;;;
     cm <- lift (w_corr w numeric_cols) ;;
     set_correlation_matrix (Some cm) ;;;
     lift (w_draw w Correlation) ;;;
     lift (w_title w Correlation) ;;;
     plt_savefig (correlation_image dataset_name) ;;;
     paths <- get image_paths ;;
     set_image_paths (paths ++ [correlation_image dataset_name]) ;;;
     lift (w_close w Correlation))
    (fun e => print ("Error generating correlation heatmap: " +:+ exn_msg e)).

(** Lines 78-87. *)
Definition missing_values_heatmap (dataset_name : string) : M unit :=
  try_except
    (lift (w_figure w MissingValues) ;;;
     lift (w_draw w MissingValues) ;;;
     lift (w_title w MissingValues) ;;;
     plt_savefig (missing_values_image dataset_name) ;;;
     paths <- get image_paths ;;
     set_image_paths (paths ++ [missing_values_image dataset_name]) ;;;
     lift (w_close w MissingValues))
    (fun e => print ("Error generating missing values heatmap: " +:+ exn_msg e)).

(** Lines 90-99. *)
Definition boxplot (dataset_name : string) : M unit :=
  try_except
    (lift (w_figure w Boxplot) ;;;
     lift (w_draw w Boxplot) ;;;
     lift (w_title w Boxplot) ;;;
     plt_savefig (boxplot_image dataset_name) ;;;
     paths <- get image_paths ;;
     set_image_paths (paths ++ [boxplot_image dataset_name]) ;;;
     lift (w_close w Boxplot))
    (fun e => print ("Error generating boxplot: " +:+ exn_msg e)).

(** Lines 55-99. *)
Definition visualize (dataset_name : string) (data : DataFrame) : M unit :=
  set_image_paths [] ;;;
  set_correlation_matrix None ;;;
  let numeric_cols := select_dtypes data in
  if empty numeric_cols then
    print "Warning: No numeric columns found in the dataset. Skipping correlation analysis, boxplot, and heatmaps."
  else
    correlation_heatmap dataset_name numeric_cols ;;;
    missing_values_heatmap dataset_name ;;;
    boxplot dataset_name.

(** Line 108: the conditional expression inside the f-string. *)
Definition corr_text (cm : option CorrMatrix) : result string :=
  match cm with
  | Some c => w_to_dict w c
  | None => Returns "N/A"
  end.

(** Line 136. *)
Definition authorization : string := "Bearer " +:+ str_opt AIPROXY_TOKEN.

(** Lines 101-148. *)
Definition narrate (dataset_name summary missing_values : string) : M string :=
  try_except
    (cm <- get correlation_matrix ;;
     ct <- lift (corr_text cm) ;;
     let prompt := prompt_text dataset_name summary missing_values ct in
     response <- requests_post authorization (data_for_api prompt) ;;
     if status_code response =? 200 then
       content <- lift (resp_content response) ;;
       ret (strip content)
     else
       print ("Error: " +:+ pretty (status_code response) +:+ ", " +:+ resp_text response) ;;;
       sys_exit 1)
    (fun e =>
       print ("Error with LLM generation: " +:+ exn_msg e) ;;;
       sys_exit 1).

(** Lines 155-161: the body of the [with] block. *)
Definition write_readme (dataset_name story : string) (paths : list string)
  : M unit :=
  f_write readme_path ("# Analysis of " +:+ dataset_name +:+ nl +:+ nl) ;;;
  f_write readme_path ("## Dataset Insights and Recommendations" +:+ nl +:+ nl) ;;;
  f_write readme_path ("### Business Report" +:+ nl) ;;;
  f_write readme_path story ;;;
  f_write readme_path (nl +:+ nl +:+ "### Visualizations" +:+ nl) ;;;
  for_each paths (fun img_path => f_write readme_path (embed_line img_path)).

(** Lines 152-166. *)
Definition report (dataset_name story : string) : M unit :=
  try_except
    (paths <- get image_paths ;;
     with_open_w readme_path (write_readme dataset_name story paths) ;;;
     print ("Analysis complete for " +:+ dataset_name +:+ ". Outputs saved in the current directory."))
    (fun e =>
       print ("Error saving README.md: " +:+ exn_msg e) ;;;
       sys_exit 1).

(** Line 48. *)
Definition dataset_name_of (filename : string) : string :=
  fst (splitext (basename filename)).

(** Lines 34-99: everything up to and including the plots. *)
Definition load_profile_visualize (filename : string) : M (string * string) :=
  data <- load_dataset filename ;;
  let dataset_name := dataset_name_of filename in
  summary <- lift (w_describe w data) ;;
  missing_values <- lift (w_isnull_sum w data) ;;
  visualize dataset_name data ;;;
  ret (summary, missing_values).

(** Lines 101-166: the narrative and the report. *)
Definition narrate_report (dataset_name : string) (profile : string * string)
  : M unit :=
  story <- narrate dataset_name (fst profile) (snd profile) ;;
  report dataset_name story.

(** Lines 48-166, for a dataset that was loaded. *)
Definition after_load (filename : string) (data : DataFrame) : M unit :=
  let dataset_name := dataset_name_of filename in
  profile <- (summary <- lift (w_describe w data) ;;
              missing_values <- lift (w_isnull_sum w data) ;;
              visualize dataset_name data ;;;
              ret (summary, missing_values)) ;;
  narrate_report dataset_name profile.

(** Lines 29-166. *)
Definition analyze_csv (filename : string) : M unit :=
  profile <- load_profile_visualize filename ;;
  narrate_report (dataset_name_of filename) profile.

(** The module, top to bottom: the token check of lines 21-24, then the
    [__main__] block of lines 168-174. *)
Definition script : M unit :=
  (if negb (truthy AIPROXY_TOKEN) then
     print "Error: AIPROXY_TOKEN environment variable not set." ;;;
     sys_exit 1
   else ret tt) ;;;
  if negb (length (w_argv w) =? 2)%nat then
    print "Usage: python autolysis.py <dataset.csv>" ;;;
    sys_exit 1
  else
    let input_csv := nth 1 (w_argv w) EmptyString in
    analyze_csv input_csv.

Definition run (files : gmap string string) : State * outcome unit :=
  script (initial_state files).

End Script.

(** ** Sample worlds *)

Module Samples.

Definition people : DataFrame :=
  {| df_rows := 2; df_columns := [("name", Object); ("age", Int64)] |}.

Definition boom : exn := Exn OtherException "boom".

Definition ok200 (content : string) : result Response :=
  Returns {| status_code := 200; resp_text := "{}";
             resp_content := Returns content |}.

(** A world in which every call the arguments do not mention succeeds. *)
Definition world (token : option string) (argv : list string)
    (read : encoding -> result DataFrame) (draw : artifact -> result unit)
    (post : result Response) (write : string -> result unit) : World :=
  {| w_getenv := fun k => if String.eqb k "AIPROXY_TOKEN" then token else None;
     w_argv := argv;
     w_read_csv := fun _ enc => read enc;
     w_describe := fun _ => Returns "{'age': {'count': 2.0}}";
     w_isnull_sum := fun _ => Returns "{'name': 0, 'age': 0}";
     w_figure := fun _ => Returns tt;
     w_corr := fun _ => Returns {| corr_id := 0 |};
     w_draw := draw;
     w_title := fun _ => Returns tt;
     w_savefig := fun f => Returns ("PNG " +:+ f);
     w_close := fun _ => Returns tt;
     w_to_dict := fun _ => Returns "{'age': {'age': 1.0}}";
     w_post := fun _ _ _ => post;
     w_open := fun _ => Returns tt;
     w_write := fun _ _ data => write data;
     w_write_partial := fun _ _ _ => 0%nat;
     w_fclose := fun _ _ => Returns tt;
     w_fclose_partial := fun _ _ => 0%nat |}.

Definition argv1 : list string := ["autolysis.py"; "data/people.csv"].

(** Everything succeeds; the completion says "Hello world". *)
Definition happy : World :=
  world (Some "secret") argv1 (fun _ => Returns people)
        (fun _ => Returns tt) (ok200 "Hello world") (fun _ => Returns tt).

(** The token is not set and no file is named on the command line. *)
Definition no_token_no_args : World :=
  world None ["autolysis.py"] (fun _ => Returns people)
        (fun _ => Returns tt) (ok200 "Hello world") (fun _ => Returns tt).

(** The token is set and no file is named on the command line. *)
Definition no_args : World :=
  world (Some "secret") ["autolysis.py"] (fun _ => Returns people)
        (fun _ => Returns tt) (ok200 "Hello world") (fun _ => Returns tt).

(** The file decodes in neither encoding. *)
Definition undecodable : World :=
  world (Some "secret") argv1
        (fun enc => match enc with
                    | UTF8 => Raises (Exn UnicodeDecodeError "invalid start byte")
                    | ISO_8859_1 => Raises (Exn OtherException "Error tokenizing data")
                    end)
        (fun _ => Returns tt) (ok200 "Hello world") (fun _ => Returns tt).

(** The file does not exist. *)
Definition missing_file : World :=
  world (Some "secret") argv1
        (fun _ => Raises (Exn OtherException "No such file or directory"))
        (fun _ => Returns tt) (ok200 "Hello world") (fun _ => Returns tt).

(** [sns.heatmap] fails for the correlation heatmap only. *)
Definition heatmap_fails : World :=
  world (Some "secret") argv1 (fun _ => Returns people)
        (fun a => match a with Correlation => Raises boom | _ => Returns tt end)
        (ok200 "Hello world") (fun _ => Returns tt).

(** The completion service answers 500. *)
Definition http_500 : World :=
  world (Some "secret") argv1 (fun _ => Returns people)
        (fun _ => Returns tt)
        (Returns {| status_code := 500; resp_text := "Internal Server Error";
                    resp_content := Raises boom |})
        (fun _ => Returns tt).

(** Writing the narrative to [README.md] fails (say, a character the
    locale's encoding cannot represent). *)
Definition story_unwritable : World :=
  world (Some "secret") argv1 (fun _ => Returns people)
        (fun _ => Returns tt) (ok200 "Hello world")
        (fun data => if String.eqb data "Hello world"
                     then Raises (Exn OtherException "codec can't encode character")
                     else Returns tt).

(** A dataset of text columns only. *)
Definition names : DataFrame :=
  {| df_rows := 2; df_columns := [("name", Object); ("city", Object)] |}.

Definition text_only : World :=
  world (Some "secret") argv1 (fun _ => Returns names)
        (fun _ => Returns tt) (ok200 "Hello world") (fun _ => Returns tt).

(** [plt.close] fails after the boxplot was saved. *)
Definition close_fails : World :=
  {| w_getenv := w_getenv happy;
     w_argv := argv1;
     w_read_csv := w_read_csv happy;
     w_describe := w_describe happy;
     w_isnull_sum := w_isnull_sum happy;
     w_figure := w_figure happy;
     w_corr := w_corr happy;
     w_draw := w_draw happy;
     w_title := w_title happy;
     w_savefig := w_savefig happy;
     w_close := fun a => match a with Boxplot => Raises boom | _ => Returns tt end;
     w_to_dict := w_to_dict happy;
     w_post := w_post happy;
     w_open := w_open happy;
     w_write := w_write happy;
     w_write_partial := w_write_partial happy;
     w_fclose := w_fclose happy;
     w_fclose_partial := w_fclose_partial happy |}.

(** Closing [README.md] fails (say, the disk is full) when 30 characters of
    the report have reached the disk. *)
Definition flush_fails : World :=
  {| w_getenv := w_getenv happy;
     w_argv := argv1;
     w_read_csv := w_read_csv happy;
     w_describe := w_describe happy;
     w_isnull_sum := w_isnull_sum happy;
     w_figure := w_figure happy;
     w_corr := w_corr happy;
     w_draw := w_draw happy;
     w_title := w_title happy;
     w_savefig := w_savefig happy;
     w_close := w_close happy;
     w_to_dict := w_to_dict happy;
     w_post := w_post happy;
     w_open := w_open happy;
     w_write := w_write happy;
     w_write_partial := w_write_partial happy;
     w_fclose := fun _ _ => Raises (Exn OtherException "No space left on device");
     w_fclose_partial := fun _ _ => 30%nat |}.

End Samples.

(** * The vocabulary of the properties *)

(** [m] takes every state to one that is [R]-related to it. *)
Definition respects {A} (R : State -> State -> Prop) (m : M A) : Prop :=
  forall s, R s (fst (m s)).

(** The relation used throughout: the trace grows by events in [P], files
    outside [W] keep their content, [image_paths] keeps its value when [Li]
    is set and [correlation_matrix] when [Lc] is. *)
Definition evolves (P : event -> Prop) (W : string -> Prop) (Li Lc : bool)
    (s s' : State) : Prop :=
  (exists evs, trace s' = trace s ++ evs /\ Forall P evs) /\
  (forall p, ~ W p -> disk s' !! p = disk s !! p) /\
  (Li = true -> image_paths s' = image_paths s) /\
  (Lc = true -> correlation_matrix s' = correlation_matrix s).

(** Kinds of events. *)
Definition is_print (e : event) : Prop :=
  match e with Print _ => True | _ => False end.

Definition is_read (filename : string) (e : event) : Prop :=
  match e with ReadCsv f _ => f = filename | _ => False end.

Definition is_savefig (names : list string) (e : event) : Prop :=
  match e with SaveFig f _ => In f names | _ => False end.

Definition is_post (e : event) : Prop :=
  match e with HttpPost _ _ _ => True | _ => False end.

Definition is_open (path : string) (e : event) : Prop :=
  match e with OpenW f _ => f = path | _ => False end.

Definition not_savefig (e : event) : Prop :=
  match e with SaveFig _ _ => False | _ => True end.

(** The three image files, in the order the script draws them. *)
Definition images (dataset_name : string) : list string :=
  [correlation_image dataset_name; missing_values_image dataset_name;
   boxplot_image dataset_name].

(** No file at all. *)
Definition nowhere : string -> Prop := fun _ => False.

(** The files that [plt.savefig] saved, in the order of the trace. *)
Definition saved_files (t : list event) : list string :=
  flat_map (fun e => match e with SaveFig f true => [f] | _ => [] end) t.

(** The events one plotting block for the file [f] can leave behind. *)
Definition block_events (w : World) (f : string) (evs : list event) : Prop :=
  (exists m, evs = [Print m]) \/
  (exists m e, evs = [SaveFig f false; Print m] /\ w_savefig w f = Raises e) \/
  (exists bytes, w_savefig w f = Returns bytes /\
     (evs = [SaveFig f true] \/ exists m, evs = [SaveFig f true; Print m])).

(** Lines 55-56: the two locals start empty. *)
Definition reset (s : State) : State :=
  {| trace := trace s; disk := disk s; image_paths := [];
     correlation_matrix := None |}.

(** The state after a plotting block for the file [f] that logged [evs]. *)
Definition after_block (w : World) (f : string) (evs : list event) (s : State)
    (cm : option CorrMatrix) : State :=
  {| trace := trace s ++ evs;
     disk := match saved_files evs, w_savefig w f with
             | _ :: _, Returns bytes => <[f := bytes]> (disk s)
             | _, _ => disk s
             end;
     image_paths := image_paths s ++ saved_files evs;
     correlation_matrix := cm |}.

(** What [correlation_matrix] holds after the first block: the matrix, once
    [plt.figure] and [corr] have returned. *)
Definition corr_after (w : World) (numeric_cols : DataFrame) (old : option CorrMatrix)
  : option CorrMatrix :=
  match w_figure w Correlation, w_corr w numeric_cols with
  | Returns _, Returns cm => Some cm
  | _, _ => old
  end.

(** The dataset that the loader returns, read off the world. *)
Definition loaded (w : World) (filename : string) : option DataFrame :=
  match w_read_csv w filename UTF8 with
  | Returns data => Some data
  | Raises (Exn UnicodeDecodeError _) =>
      match w_read_csv w filename ISO_8859_1 with
      | Returns data => Some data
      | Raises _ => None
      end
  | Raises (Exn OtherException _) => None
  end.

(** The run gets as far as the plots, with the dataset [data]. *)
Definition reaches_plots (w : World) (filename : string) (data : DataFrame) : Prop :=
  loaded w filename = Some data /\
  (exists summary, w_describe w data = Returns summary) /\
  (exists missing_values, w_isnull_sum w data = Returns missing_values).

(** Some column is of dtype float64 or int64. *)
Definition has_numeric_column (data : DataFrame) : bool :=
  existsb (fun c => is_numeric (snd c)) (df_columns data).

(** A table as [pd.read_csv] builds it: the columns of a file without rows
    are given the dtype [object]. *)
Definition csv_frame (data : DataFrame) : Prop :=
  df_rows data = 0%nat -> has_numeric_column data = false.

(** The ways the try block of lines 101-148 fails: building the request
    raises, the post raises, the status is not 200, or reading the content
    out of the response raises. *)
Inductive narrative_failure (w : World) (dataset_name summary missing_values : string)
    (cm : option CorrMatrix) : Prop :=
| request_construction_raises e :
    corr_text w cm = Raises e ->
    narrative_failure w dataset_name summary missing_values cm
| post_raises ct e :
    corr_text w cm = Returns ct ->
    w_post w url (authorization w)
      (data_for_api (prompt_text dataset_name summary missing_values ct)) = Raises e ->
    narrative_failure w dataset_name summary missing_values cm
| status_not_200 ct response :
    corr_text w cm = Returns ct ->
    w_post w url (authorization w)
      (data_for_api (prompt_text dataset_name summary missing_values ct)) = Returns response ->
    status_code response <> 200 ->
    narrative_failure w dataset_name summary missing_values cm
| response_parsing_raises ct response e :
    corr_text w cm = Returns ct ->
    w_post w url (authorization w)
      (data_for_api (prompt_text dataset_name summary missing_values ct)) = Returns response ->
    status_code response = 200 ->
    resp_content response = Raises e ->
    narrative_failure w dataset_name summary missing_values cm.

(** The one way it succeeds: the service answers 200 with [content]. *)
Definition completion_content (w : World) (dataset_name summary missing_values : string)
    (cm : option CorrMatrix) (content : string) : Prop :=
  exists ct response,
    corr_text w cm = Returns ct /\
    w_post w url (authorization w)
      (data_for_api (prompt_text dataset_name summary missing_values ct)) = Returns response /\
    status_code response = 200 /\
    resp_content response = Returns content.

(** The narrative is that content, stripped. *)
Definition narrative_is (w : World) (dataset_name summary missing_values : string)
    (cm : option CorrMatrix) (story : string) : Prop :=
  exists content,
    completion_content w dataset_name summary missing_values cm content /\
    story = strip content.

(** The request the narrator posts, for the matrix [cm] it finds. *)
Definition is_completion_post (w : World) (dataset_name summary missing_values : string)
    (cm : option CorrMatrix) (e : event) : Prop :=
  exists ct,
    corr_text w cm = Returns ct /\
    e = HttpPost url (authorization w)
          (data_for_api (prompt_text dataset_name summary missing_values ct)).

(** The concatenation of the pieces written to a file. *)
Definition join (chunks : list string) : string :=
  fold_right String.append EmptyString chunks.

(** [full] begins with [text]: [full.startswith(text)]. *)
Definition begins_with (full text : string) : bool := String.prefix text full.

(** The state [s] with the file [path] holding [content]. *)
Definition set_file (s : State) (path content : string) : State :=
  {| trace := trace s; disk := <[path := content]> (disk s);
     image_paths := image_paths s;
     correlation_matrix := correlation_matrix s |}.

(** What lines 155-161 write, piece by piece. *)
Definition readme_chunks (dataset_name story : string) (paths : list string)
  : list string :=
  [ "# Analysis of " +:+ dataset_name +:+ nl +:+ nl;
    "## Dataset Insights and Recommendations" +:+ nl +:+ nl;
    "### Business Report" +:+ nl;
    story;
    nl +:+ nl +:+ "### Visualizations" +:+ nl ] ++ map embed_line paths.

(** One image-embed line, with the file name as alt text and as path. *)
Definition image_line (filename : string) : string :=
  "![" +:+ filename +:+ "](" +:+ filename +:+ ")" +:+ nl.

(** The report: the heading naming the dataset, the fixed headings, the
    narrative, the heading of the visualizations, one line per image. *)
Definition readme_text (dataset_name story : string) (paths : list string) : string :=
  "# Analysis of " +:+ dataset_name +:+ nl +:+ nl +:+
  "## Dataset Insights and Recommendations" +:+ nl +:+ nl +:+
  "### Business Report" +:+ nl +:+
  story +:+
  nl +:+ nl +:+ "### Visualizations" +:+ nl +:+
  join (map image_line paths).

(** The number of requests posted. *)
Definition count_posts (t : list event) : nat :=
  length (List.filter (fun e => match e with HttpPost _ _ _ => true | _ => false end) t).




(** The last line of a run that ends normally. *)
Definition complete_line (dataset_name : string) : string :=
  "Analysis complete for " +:+ dataset_name +:+ ". Outputs saved in the current directory.".



(** [m] behaves alike in two [R]-related states: the same outcome, and
    related states again. *)
Definition uniform {A} (R : State -> State -> Prop) (m : M A) : Prop :=
  forall s1 s2, R s1 s2 ->
    snd (m s1) = snd (m s2) /\ R (fst (m s1)) (fst (m s2)).

(** Two runs that started with the files [d1] and [d2]: the same events and
    locals so far, and the same files [written] over what was there; with
    [opened], [README.md] is among them. *)
Definition alike (d1 d2 : gmap string string) (opened : bool) (s1 s2 : State) : Prop :=
  trace s1 = trace s2 /\
  image_paths s1 = image_paths s2 /\
  correlation_matrix s1 = correlation_matrix s2 /\
  exists written : gmap string string,
    disk s1 = written ∪ d1 /\ disk s2 = written ∪ d2 /\
    (opened = true -> is_Some (written !! readme_path)).

(** * Properties *)

(** ** Strings and paths *)

Section StringFacts.

Lemma app_cons a s t : String a s +:+ t = String a (s +:+ t).
Proof. reflexivity. Qed.

Lemma length_app s t :
  String.length (s +:+ t) = (String.length s + String.length t)%nat.
Proof.
  induction s as [|a s IH]; [reflexivity|].
  rewrite app_cons. simpl. now rewrite IH.
Qed.

Lemma contains_app c s t :
  contains c (s +:+ t) = contains c s || contains c t.
Proof.
  induction s as [|a s IH]; [reflexivity|].
  rewrite app_cons. simpl. destruct (Ascii.eqb a c); auto.
Qed.

Lemma contains_take c n s : contains c s = false -> contains c (take n s) = false.
Proof.
  revert s. induction n as [|n IH]; intros [|a s]; simpl; auto.
  destruct (Ascii.eqb a c); [discriminate|]. apply IH.
Qed.

(** [rfind] answers [-1] exactly when the character does not occur, and an
    index of the string otherwise. *)
Lemma rfind_from_range c s i :
  0 <= i ->
  (rfind_from c s i = -1 /\ contains c s = false) \/
  (i <= rfind_from c s i < i + Z.of_nat (String.length s) /\ contains c s = true).
Proof.
  revert i. induction s as [|a s IH]; intros i Hi; [left; auto|].
  cbn [rfind_from contains String.length].
  destruct (IH (i + 1) ltac:(lia)) as [[-> Hc]|[Hr Hc]]; rewrite Hc.
  - change (0 <=? -1) with false. cbv iota.
    destruct (Ascii.eqb a c); [right|left]; split; auto; lia.
  - replace (0 <=? rfind_from c s (i + 1)) with true
      by (symmetry; apply Z.leb_le; lia).
    right. split; [lia|]. now destruct (Ascii.eqb a c).
Qed.

Lemma rfind_absent c s : contains c s = false -> rfind c s = -1.
Proof.
  intros H. unfold rfind.
  destruct (rfind_from_range c s 0 ltac:(lia)) as [[? _]|[_ ?]]; congruence.
Qed.

(** What follows the last occurrence holds no further occurrence. *)
Lemma contains_after_rfind c s i :
  0 <= i ->
  contains c (drop (Z.to_nat (rfind_from c s i + 1 - i)) s) = false.
Proof.
  revert i. induction s as [|a s IH]; intros i Hi.
  - simpl. now destruct (Z.to_nat _).
  - cbn [rfind_from].
    destruct (rfind_from_range c s (i + 1) ltac:(lia)) as [[E Hc]|[Hr Hc]].
    + rewrite E. change (0 <=? -1) with false. cbv iota.
      destruct (Ascii.eqb a c) eqn:Ea.
      * replace (Z.to_nat (i + 1 - i)) with 1%nat by lia. exact Hc.
      * replace (Z.to_nat (-1 + 1 - i)) with 0%nat by lia.
        simpl. now rewrite Ea.
    + replace (0 <=? rfind_from c s (i + 1)) with true
        by (symmetry; apply Z.leb_le; lia).
      replace (Z.to_nat (rfind_from c s (i + 1) + 1 - i))
        with (S (Z.to_nat (rfind_from c s (i + 1) + 1 - (i + 1)))) by lia.
      simpl. now apply IH; lia.
Qed.

Lemma basename_no_sep p : contains sep (basename p) = false.
Proof.
  unfold basename, rfind.
  replace (rfind_from sep p 0 + 1) with (rfind_from sep p 0 + 1 - 0) by lia.
  now apply contains_after_rfind.
Qed.

Lemma basename_id p : contains sep p = false -> basename p = p.
Proof. intros H. unfold basename. now rewrite (rfind_absent _ _ H). Qed.

(** The root that [splitext] returns is the path or one of its prefixes. *)
Lemma splitext_loop_root n p i d :
  fst (splitext_loop n p i d) = p \/
  fst (splitext_loop n p i d) = take (Z.to_nat d) p.
Proof.
  revert i. induction n as [|k IH]; intros i; simpl; [now left|].
  destruct (negb _); [now right|apply IH].
Qed.

Lemma splitext_root p :
  fst (splitext p) = p \/ exists n, fst (splitext p) = take n p.
Proof.
  unfold splitext. destruct (_ <? _); [|now left].
  destruct (splitext_loop_root (Z.to_nat (rfind extsep p - (rfind sep p + 1))) p
              (rfind sep p + 1) (rfind extsep p)) as [H|H]; eauto.
Qed.

Lemma dataset_name_no_sep filename :
  contains sep (dataset_name_of filename) = false.
Proof.
  unfold dataset_name_of.
  destruct (splitext_root (basename filename)) as [->|[n ->]].
  - apply basename_no_sep.
  - apply contains_take, basename_no_sep.
Qed.

(** Line 161 applies [os.path.basename] to names that hold no directory
    part, so it returns them as they are. *)
Lemma basename_image filename suffix :
  contains sep suffix = false ->
  basename (dataset_name_of filename +:+ suffix) = dataset_name_of filename +:+ suffix.
Proof.
  intros H. apply basename_id.
  now rewrite contains_app, dataset_name_no_sep, H.
Qed.

(** The three image names differ from each other and from [README.md]. *)
Lemma suffix_neq name s1 s2 : s1 <> s2 -> name +:+ s1 <> name +:+ s2.
Proof. intros Hne Heq. apply Hne. eapply String.app_inj, Heq. Qed.

Lemma image_neq_readme name suffix :
  (9 < String.length suffix)%nat -> name +:+ suffix <> readme_path.
Proof.
  intros Hlen Heq. apply (f_equal String.length) in Heq.
  rewrite length_app in Heq. change (String.length readme_path) with 9%nat in Heq.
  lia.
Qed.

End StringFacts.

(** ** What a computation may change *)

(** A relation between the state before and the state after that is closed
    under the control structures of the script. *)
Section Frame.

Variable R : State -> State -> Prop.
Hypothesis R_refl : forall s, R s s.
Hypothesis R_trans : forall s1 s2 s3, R s1 s2 -> R s2 s3 -> R s1 s3.

Lemma respects_ret {A} (a : A) : respects R (ret a).
Proof. intros s. apply R_refl. Qed.

Lemma respects_raise {A} e : respects R (@raise A e).
Proof. intros s. apply R_refl. Qed.

Lemma respects_sys_exit {A} c : respects R (@sys_exit A c).
Proof. intros s. apply R_refl. Qed.

Lemma respects_lift {A} (r : result A) : respects R (lift r).
Proof. destruct r; [apply respects_ret | apply respects_raise]. Qed.

Lemma respects_get {A} (f : State -> A) : respects R (get f).
Proof. intros s. apply R_refl. Qed.

Lemma respects_bind {A B} (m : M A) (k : A -> M B) :
  respects R m -> (forall a, respects R (k a)) -> respects R (bind m k).
Proof.
  intros Hm Hk s. unfold bind. specialize (Hm s).
  destruct (m s) as [s1 [a|e|c]]; simpl in *; auto.
  eapply R_trans; [exact Hm | apply Hk].
Qed.

Lemma respects_try_except {A} (body : M A) handler :
  respects R body -> (forall e, respects R (handler e)) ->
  respects R (try_except body handler).
Proof.
  intros Hb Hh s. unfold try_except. specialize (Hb s).
  destruct (body s) as [s1 [a|e|c]]; simpl in *; auto.
  eapply R_trans; [exact Hb | apply Hh].
Qed.

Lemma respects_try_except_decode {A} (body handler : M A) :
  respects R body -> respects R handler ->
  respects R (try_except_decode body handler).
Proof.
  intros Hb Hh s. unfold try_except_decode. specialize (Hb s).
  destruct (body s) as [s1 [a|[[] msg]|c]]; simpl in *; auto.
  eapply R_trans; [exact Hb | apply Hh].
Qed.

Lemma respects_for_each {A} (l : list A) body :
  (forall x, respects R (body x)) -> respects R (for_each l body).
Proof.
  intros Hb. induction l as [|x l IH]; simpl.
  - apply respects_ret.
  - apply respects_bind; auto.
Qed.

Lemma respects_with_open_w w path body :
  respects R (open_w w path) -> respects R body -> respects R (f_close w path) ->
  respects R (with_open_w w path body).
Proof.
  intros Ho Hb Hc. unfold with_open_w.
  apply respects_bind; [exact Ho|]. intros _ s.
  specialize (Hb s). destruct (body s) as [s1 o]. specialize (Hc s1).
  simpl in Hb. destruct (f_close w path s1) as [s2 [a|e|c]]; simpl in *;
    eapply R_trans; eauto.
Qed.

End Frame.

Lemma evolves_weaken (P P' : event -> Prop) (W W' : string -> Prop)
    (Li Lc Li' Lc' : bool) s s' :
  (forall e, P e -> P' e) -> (forall p, W p -> W' p) ->
  (Li' = true -> Li = true) -> (Lc' = true -> Lc = true) ->
  evolves P W Li Lc s s' -> evolves P' W' Li' Lc' s s'.
Proof.
  intros HP HW HLi HLc ([evs [T F]] & D & I & C).
  split; [|split; [|split]]; auto.
  exists evs. split; auto. eapply Forall_impl; eauto.
Qed.

Section Evolves.

Variables (P : event -> Prop) (W : string -> Prop) (Li Lc : bool).

Lemma evolves_refl s : evolves P W Li Lc s s.
Proof.
  split; [|split]; auto.
  exists []. split; [symmetry; apply app_nil_r | constructor].
Qed.

Lemma evolves_trans s1 s2 s3 :
  evolves P W Li Lc s1 s2 -> evolves P W Li Lc s2 s3 -> evolves P W Li Lc s1 s3.
Proof.
  intros ([e1 [T1 F1]] & D1 & I1 & C1) ([e2 [T2 F2]] & D2 & I2 & C2).
  split; [|split; [|split]].
  - exists (e1 ++ e2). split.
    + rewrite T2, T1. symmetry. apply app_assoc.
    + apply Forall_app; auto.
  - intros p Hp. rewrite D2, D1; auto.
  - intros H. rewrite I2, I1; auto.
  - intros H. rewrite C2, C1; auto.
Qed.

Local Abbreviation ok := (respects (evolves P W Li Lc)).

Lemma ok_ret {A} (a : A) : ok (ret a).
Proof. apply respects_ret, evolves_refl. Qed.

Lemma ok_raise {A} e : ok (@raise A e).
Proof. apply respects_raise, evolves_refl. Qed.

Lemma ok_sys_exit {A} c : ok (@sys_exit A c).
Proof. apply respects_sys_exit, evolves_refl. Qed.

Lemma ok_lift {A} (r : result A) : ok (lift r).
Proof. apply respects_lift, evolves_refl. Qed.

Lemma ok_get {A} (f : State -> A) : ok (get f).
Proof. apply respects_get, evolves_refl. Qed.

Lemma ok_bind {A B} (m : M A) (k : A -> M B) :
  ok m -> (forall a, ok (k a)) -> ok (bind m k).
Proof. apply respects_bind, evolves_trans. Qed.

Lemma ok_try_except {A} (body : M A) handler :
  ok body -> (forall e, ok (handler e)) -> ok (try_except body handler).
Proof. apply respects_try_except, evolves_trans. Qed.

Lemma ok_try_except_decode {A} (body handler : M A) :
  ok body -> ok handler -> ok (try_except_decode body handler).
Proof. apply respects_try_except_decode, evolves_trans. Qed.

Lemma ok_for_each {A} (l : list A) body :
  (forall x, ok (body x)) -> ok (for_each l body).
Proof. apply respects_for_each; [apply evolves_refl | apply evolves_trans]. Qed.

Lemma ok_log e : P e -> ok (log e).
Proof.
  intros He s. split; [|split]; simpl; auto.
  exists [e]. split; auto.
Qed.

Lemma ok_print line : P (Print line) -> ok (print line).
Proof. apply ok_log. Qed.

Lemma ok_set_image_paths l : Li = false -> ok (set_image_paths l).
Proof.
  intros HL s. split; [|split; [|split]]; simpl; auto; [|congruence].
  exists []. split; [symmetry; apply app_nil_r | constructor].
Qed.

Lemma ok_set_correlation_matrix c : Lc = false -> ok (set_correlation_matrix c).
Proof.
  intros HL s. split; [|split; [|split]]; simpl; auto; [|congruence].
  exists []. split; [symmetry; apply app_nil_r | constructor].
Qed.

Lemma ok_insert path data :
  W path -> ok (d <- get disk ;; set_disk (<[path := data]> d)).
Proof.
  intros HW s. split; [|split]; simpl; auto.
  - exists []. split; [symmetry; apply app_nil_r | constructor].
  - intros p Hp. apply lookup_insert_ne. congruence.
Qed.

Variable w : World.

Lemma ok_pd_read_csv filename enc :
  P (ReadCsv filename enc) -> ok (pd_read_csv w filename enc).
Proof.
  intros HP. apply ok_bind; [now apply ok_log|]. intros _. apply ok_lift.
Qed.

Lemma ok_plt_savefig filename :
  (forall b, P (SaveFig filename b)) -> W filename -> ok (plt_savefig w filename).
Proof.
  intros HP HW. unfold plt_savefig. destruct (w_savefig w filename).
  - apply ok_bind; [now apply ok_log|]. intros _. now apply ok_insert.
  - apply ok_bind; [now apply ok_log|]. intros _. apply ok_raise.
Qed.

Lemma ok_requests_post authorization body :
  P (HttpPost url authorization body) -> ok (requests_post w authorization body).
Proof.
  intros HP. apply ok_bind; [now apply ok_log|]. intros _. apply ok_lift.
Qed.

Lemma ok_open_w path :
  (forall b, P (OpenW path b)) -> W path -> ok (open_w w path).
Proof.
  intros HP HW. unfold open_w. destruct (w_open w path).
  - apply ok_bind; [now apply ok_log|]. intros _. now apply ok_insert.
  - apply ok_bind; [now apply ok_log|]. intros _. apply ok_raise.
Qed.

Lemma ok_file_content path : ok (file_content path).
Proof. apply ok_bind; [apply ok_get|]. intros d. apply ok_ret. Qed.

Lemma ok_f_write path data : W path -> ok (f_write w path data).
Proof.
  intros HW. apply ok_bind; [apply ok_file_content|]. intros content.
  destruct (w_write w path content data).
  - now apply ok_insert.
  - apply ok_bind; [now apply ok_insert|]. intros _. apply ok_raise.
Qed.

Lemma ok_f_close path : W path -> ok (f_close w path).
Proof.
  intros HW. apply ok_bind; [apply ok_file_content|]. intros content.
  destruct (w_fclose w path content).
  - apply ok_ret.
  - apply ok_bind; [now apply ok_insert|]. intros _. apply ok_raise.
Qed.

Lemma ok_with_open_w path body :
  (forall b, P (OpenW path b)) -> W path -> ok body ->
  ok (with_open_w w path body).
Proof.
  intros HP HW Hb.
  apply respects_with_open_w;
    [apply evolves_trans | | exact Hb | now apply ok_f_close].
  now apply ok_open_w.
Qed.

End Evolves.

(** Walks through a computation built from the combinators above and leaves
    the conditions on the events it logs and the files it writes. *)
Ltac frame_step :=
  lazymatch goal with
  | |- respects _ (ret _) => apply ok_ret
  | |- respects _ (raise _) => apply ok_raise
  | |- respects _ (sys_exit _) => apply ok_sys_exit
  | |- respects _ (lift _) => apply ok_lift
  | |- respects _ (get _) => apply ok_get
  | |- respects _ (bind _ _) => apply ok_bind; [|intros ?]
  | |- respects _ (try_except_decode _ _) => apply ok_try_except_decode
  | |- respects _ (try_except _ _) => apply ok_try_except; [|intros ?]
  | |- respects _ (for_each _ _) => apply ok_for_each; intros ?
  | |- respects _ (print _) => apply ok_print
  | |- respects _ (log _) => apply ok_log
  | |- respects _ (pd_read_csv _ _ _) => apply ok_pd_read_csv
  | |- respects _ (plt_savefig _ _) => apply ok_plt_savefig; [intros ?|]
  | |- respects _ (requests_post _ _ _) => apply ok_requests_post
  | |- respects _ (with_open_w _ _ _) => apply ok_with_open_w; [intros ?| |]
  | |- respects _ (f_write _ _ _) => apply ok_f_write
  | |- respects _ (set_image_paths _) => apply ok_set_image_paths
  | |- respects _ (set_correlation_matrix _) => apply ok_set_correlation_matrix
  | |- respects _ (if ?b then _ else _) => destruct b
  | |- respects _ (match ?x with _ => _ end) => destruct x
  end.

Ltac frame := repeat frame_step.

(** ** The stages, one by one *)

Section Stages.

Variable w : World.

Lemma load_dataset_frame filename :
  respects (evolves (fun e => is_print e \/ is_read filename e) nowhere true true)
           (load_dataset w filename).
Proof. unfold load_dataset. frame; simpl; auto. Qed.

Lemma visualize_frame name data :
  respects (evolves (fun e => is_print e \/ is_savefig (images name) e)
                    (fun p => In p (images name)) false false)
           (visualize w name data).
Proof.
  unfold visualize, correlation_heatmap, missing_values_heatmap, boxplot.
  frame; simpl; auto 6.
Qed.

Lemma narrate_frame name summary missing :
  respects (evolves (fun e => is_print e \/ is_post e) nowhere true true)
           (narrate w name summary missing).
Proof. unfold narrate. frame; simpl; auto. Qed.

Lemma report_frame name story :
  respects (evolves (fun e => is_print e \/ is_open readme_path e)
                    (fun p => p = readme_path) true true)
           (report w name story).
Proof. unfold report, write_readme. frame; simpl; auto. Qed.

End Stages.

(** ** Running the script *)

Lemma emit_emit s a b : emit (emit s a) b = emit s (a ++ b).
Proof. unfold emit. simpl. now rewrite <- app_assoc. Qed.

Lemma emit_nil s : emit s [] = s.
Proof. destruct s. unfold emit. simpl. now rewrite app_nil_r. Qed.

(** ** The loader, case by case *)

Section Loader.
Variable w : World.

Lemma load_utf8 filename s data :
  w_read_csv w filename UTF8 = Returns data ->
  load_dataset w filename s =
    (emit s [ReadCsv filename UTF8;
             Print ("Successfully loaded dataset: " +:+ filename)], Ret data).
Proof.
  intros H. unfold load_dataset, try_except_decode, pd_read_csv, print, bind, log.
  rewrite H. simpl. now rewrite emit_emit.
Qed.

Lemma load_fallback filename s m data :
  w_read_csv w filename UTF8 = Raises (Exn UnicodeDecodeError m) ->
  w_read_csv w filename ISO_8859_1 = Returns data ->
  load_dataset w filename s =
    (emit s [ReadCsv filename UTF8; ReadCsv filename ISO_8859_1;
             Print ("Successfully loaded dataset with ISO-8859-1 encoding: " +:+ filename)],
     Ret data).
Proof.
  intros H1 H2.
  unfold load_dataset, try_except_decode, try_except, pd_read_csv, print, bind, log.
  rewrite H1. simpl. rewrite H2. simpl. now rewrite !emit_emit.
Qed.

Lemma load_both_fail filename s m e :
  w_read_csv w filename UTF8 = Raises (Exn UnicodeDecodeError m) ->
  w_read_csv w filename ISO_8859_1 = Raises e ->
  load_dataset w filename s =
    (emit s [ReadCsv filename UTF8; ReadCsv filename ISO_8859_1;
             Print ("Error loading dataset: " +:+ exn_msg e)],
     SysExit 1).
Proof.
  intros H1 H2.
  unfold load_dataset, try_except_decode, try_except, pd_read_csv, print, bind, log.
  rewrite H1. simpl. rewrite H2. simpl. now rewrite !emit_emit.
Qed.

Lemma load_uncaught filename s e :
  w_read_csv w filename UTF8 = Raises e ->
  exn_cls e <> UnicodeDecodeError ->
  load_dataset w filename s = (emit s [ReadCsv filename UTF8], Raise e).
Proof.
  intros H1 Hc.
  unfold load_dataset, try_except_decode, try_except, pd_read_csv, print, bind, log.
  rewrite H1. simpl. destruct e as [[] m]; simpl in *; congruence.
Qed.

End Loader.

(** ** The module level: token check, then argument check *)

Section TopLevel.

Variable w : World.

(** With the token set and one file named, the script is [analyze_csv]. *)
Lemma run_analyze prog filename files :
  truthy (AIPROXY_TOKEN w) = true ->
  w_argv w = [prog; filename] ->
  run w files = analyze_csv w filename (initial_state files).
Proof.
  intros Ht Ha. unfold run, script, bind. rewrite Ht, Ha. reflexivity.
Qed.

Lemma falsy_token_exits files :
  truthy (AIPROXY_TOKEN w) = false ->
  run w files =
    (emit (initial_state files)
          [Print "Error: AIPROXY_TOKEN environment variable not set."],
     SysExit 1).
Proof. intros Ht. unfold run, script, bind. rewrite Ht. reflexivity. Qed.

Lemma wrong_argc_exits files :
  truthy (AIPROXY_TOKEN w) = true ->
  length (w_argv w) <> 2%nat ->
  run w files =
    (emit (initial_state files) [Print "Usage: python autolysis.py <dataset.csv>"],
     SysExit 1).
Proof.
  intros Ht Ha. unfold run, script, bind. rewrite Ht. simpl.
  destruct (Nat.eqb_spec (length (w_argv w)) 2); [contradiction|reflexivity].
Qed.

End TopLevel.

(** C7: when the environment variable [AIPROXY_TOKEN] is absent, the process
    prints the missing-token error and exits with status 1 at once: nothing
    but that line is in the trace (no file is read, no figure saved, no
    request posted, no file opened) and the files on disk are as they were. *)
Theorem missing_token_exits_before_io (w : World) (files : gmap string string) :
  w_getenv w "AIPROXY_TOKEN" = None ->
  exit_status (snd (run w files)) = 1 /\
  exit_status (snd (run w files)) <> 0 /\
  trace (fst (run w files)) =
    [Print "Error: AIPROXY_TOKEN environment variable not set."] /\
  disk (fst (run w files)) = files.
Proof.
  intros H. rewrite falsy_token_exits by (unfold AIPROXY_TOKEN; now rewrite H).
  simpl. repeat split; lia.
Qed.

Lemma missing_token_exits_before_io_witness :
  exit_status (snd (run Samples.no_token_no_args ∅)) = 1 /\
  exit_status (snd (run Samples.no_token_no_args ∅)) <> 0 /\
  trace (fst (run Samples.no_token_no_args ∅)) =
    [Print "Error: AIPROXY_TOKEN environment variable not set."] /\
  disk (fst (run Samples.no_token_no_args ∅)) = ∅.
Proof.
  apply (missing_token_exits_before_io Samples.no_token_no_args ∅).
  reflexivity.
Defined.

(** C8, as stated, fails: with the token absent and no file named, the
    argument count is wrong and yet the usage line is never printed. *)
Lemma usage_not_printed_without_token :
  length (w_argv Samples.no_token_no_args) <> 2%nat /\
  ~ In (Print "Usage: python autolysis.py <dataset.csv>")
       (trace (fst (run Samples.no_token_no_args ∅))).
Proof.
  split; [simpl; lia|].
  rewrite falsy_token_exits by reflexivity.
  simpl. intros [H|[]]. discriminate H.
Qed.

(** C8, amended: when the token is set and the argument count differs from
    one positional argument, the program prints the usage line and exits
    with status 1; it attempts to load no dataset and changes no file. *)
Theorem wrong_argument_count_prints_usage (w : World) (files : gmap string string) :
  truthy (AIPROXY_TOKEN w) = true ->
  length (w_argv w) <> 2%nat ->
  trace (fst (run w files)) = [Print "Usage: python autolysis.py <dataset.csv>"] /\
  exit_status (snd (run w files)) = 1 /\
  (forall filename enc, ~ In (ReadCsv filename enc) (trace (fst (run w files)))) /\
  disk (fst (run w files)) = files.
Proof.
  intros Ht Ha. rewrite wrong_argc_exits by assumption. simpl.
  repeat split; auto. intros f enc [H|[]]. discriminate H.
Qed.

Lemma wrong_argument_count_prints_usage_witness :
  trace (fst (run Samples.no_args ∅)) =
    [Print "Usage: python autolysis.py <dataset.csv>"] /\
  exit_status (snd (run Samples.no_args ∅)) = 1 /\
  (forall filename enc, ~ In (ReadCsv filename enc) (trace (fst (run Samples.no_args ∅)))) /\
  disk (fst (run Samples.no_args ∅)) = ∅.
Proof.
  apply (wrong_argument_count_prints_usage Samples.no_args ∅).
  - reflexivity.
  - simpl. lia.
Defined.

(** C9: the token check runs before the argument check.  With a wrong
    argument count and the token absent, the process exits with the
    missing-token error and the usage line is never printed. *)
Theorem token_check_precedes_usage (w : World) (files : gmap string string) :
  w_getenv w "AIPROXY_TOKEN" = None ->
  length (w_argv w) <> 2%nat ->
  run w files =
    (emit (initial_state files)
          [Print "Error: AIPROXY_TOKEN environment variable not set."],
     SysExit 1) /\
  ~ In (Print "Usage: python autolysis.py <dataset.csv>") (trace (fst (run w files))).
Proof.
  intros H _.
  rewrite falsy_token_exits by (unfold AIPROXY_TOKEN; now rewrite H).
  split; [reflexivity|]. simpl. intros [E|[]]. discriminate E.
Qed.

Lemma token_check_precedes_usage_witness :
  run Samples.no_token_no_args ∅ =
    (emit (initial_state ∅)
          [Print "Error: AIPROXY_TOKEN environment variable not set."],
     SysExit 1) /\
  ~ In (Print "Usage: python autolysis.py <dataset.csv>")
       (trace (fst (run Samples.no_token_no_args ∅))).
Proof.
  apply (token_check_precedes_usage Samples.no_token_no_args ∅).
  - reflexivity.
  - simpl. lia.
Defined.

(** ** [analyze_csv] after the loader *)

Section AfterLoad.

Variable w : World.

Lemma analyze_csv_after_load filename s :
  analyze_csv w filename s = bind (load_dataset w filename) (after_load w filename) s.
Proof.
  unfold analyze_csv, load_profile_visualize, after_load, bind.
  destruct (load_dataset w filename s) as [s1 [data|e|c]]; reflexivity.
Qed.

Lemma after_load_frame filename data :
  respects
    (evolves (fun e => is_print e \/ is_savefig (images (dataset_name_of filename)) e \/
                       is_post e \/ is_open readme_path e)
             (fun p => In p (images (dataset_name_of filename)) \/ p = readme_path)
             false false)
    (after_load w filename data).
Proof.
  unfold after_load, narrate_report, visualize, correlation_heatmap,
    missing_values_heatmap, boxplot, narrate, report, write_readme.
  frame; simpl; auto 8.
Qed.

(** The four ways the loader can go. *)
Lemma load_dataset_cases filename s :
  (exists data, w_read_csv w filename UTF8 = Returns data /\
     load_dataset w filename s =
       (emit s [ReadCsv filename UTF8;
                Print ("Successfully loaded dataset: " +:+ filename)], Ret data)) \/
  (exists m data, w_read_csv w filename UTF8 = Raises (Exn UnicodeDecodeError m) /\
     w_read_csv w filename ISO_8859_1 = Returns data /\
     load_dataset w filename s =
       (emit s [ReadCsv filename UTF8; ReadCsv filename ISO_8859_1;
                Print ("Successfully loaded dataset with ISO-8859-1 encoding: " +:+ filename)],
        Ret data)) \/
  (exists m e, w_read_csv w filename UTF8 = Raises (Exn UnicodeDecodeError m) /\
     w_read_csv w filename ISO_8859_1 = Raises e /\
     load_dataset w filename s =
       (emit s [ReadCsv filename UTF8; ReadCsv filename ISO_8859_1;
                Print ("Error loading dataset: " +:+ exn_msg e)], SysExit 1)) \/
  (exists e, w_read_csv w filename UTF8 = Raises e /\
     exn_cls e <> UnicodeDecodeError /\
     load_dataset w filename s = (emit s [ReadCsv filename UTF8], Raise e)).
Proof.
  destruct (w_read_csv w filename UTF8) as [data|[[] m]] eqn:E1.
  - left. eauto using load_utf8.
  - destruct (w_read_csv w filename ISO_8859_1) as [data|e] eqn:E2.
    + right; left. eauto 6 using load_fallback.
    + right; right; left. eauto 6 using load_both_fail.
  - right; right; right. eexists. split; [reflexivity|].
    split; [discriminate|]. now apply load_uncaught.
Qed.

(** Whatever [analyze_csv] logs after the loader's events is no read. *)
Lemma analyze_csv_trace filename s :
  exists evs,
    trace (fst (analyze_csv w filename s)) =
      trace (fst (load_dataset w filename s)) ++ evs /\
    Forall (fun e => is_print e \/ is_savefig (images (dataset_name_of filename)) e \/
                     is_post e \/ is_open readme_path e) evs.
Proof.
  rewrite analyze_csv_after_load. unfold bind.
  destruct (load_dataset w filename s) as [s1 [data|e|c]]; simpl;
    try (exists []; split; [symmetry; apply app_nil_r|constructor]).
  destruct (after_load_frame filename data s1) as [[evs [T F]] _]. eauto.
Qed.

Lemma analyze_csv_reads filename s f enc :
  In (ReadCsv f enc) (trace (fst (analyze_csv w filename s))) ->
  In (ReadCsv f enc) (trace (fst (load_dataset w filename s))).
Proof.
  destruct (analyze_csv_trace filename s) as [evs [-> F]].
  rewrite in_app_iff. intros [H|H]; [exact H|].
  rewrite Forall_forall in F. apply list_elem_of_In, F in H.
  simpl in H. tauto.
Qed.

End AfterLoad.

(** C2: the loader first reads the file as UTF-8; when that raises a decoding
    error it reads it once more, as ISO-8859-1; when that fails too, it
    prints the error, the process exits with status 1, and no file has been
    written. *)
Theorem loader_two_encodings_then_exit (w : World) (prog filename : string)
    (files : gmap string string) :
  truthy (AIPROXY_TOKEN w) = true ->
  w_argv w = [prog; filename] ->
  (exists rest, trace (fst (run w files)) = ReadCsv filename UTF8 :: rest) /\
  (forall m, w_read_csv w filename UTF8 = Raises (Exn UnicodeDecodeError m) ->
     exists rest, trace (fst (run w files)) =
                    ReadCsv filename UTF8 :: ReadCsv filename ISO_8859_1 :: rest) /\
  (forall m e, w_read_csv w filename UTF8 = Raises (Exn UnicodeDecodeError m) ->
     w_read_csv w filename ISO_8859_1 = Raises e ->
     trace (fst (run w files)) =
       [ReadCsv filename UTF8; ReadCsv filename ISO_8859_1;
        Print ("Error loading dataset: " +:+ exn_msg e)] /\
     snd (run w files) = SysExit 1 /\
     exit_status (snd (run w files)) <> 0 /\
     disk (fst (run w files)) = files).
Proof.
  intros Ht Ha. rewrite (run_analyze w prog filename files Ht Ha).
  destruct (analyze_csv_trace w filename (initial_state files)) as [evs [T _]].
  split; [|split].
  - rewrite T.
    destruct (load_dataset_cases w filename (initial_state files))
      as [(d & _ & ->)|[(m & d & _ & _ & ->)|[(m & e & _ & _ & ->)|(e & _ & _ & ->)]]];
      simpl; eauto.
  - intros m Hm. rewrite T.
    destruct (w_read_csv w filename ISO_8859_1) as [d|e] eqn:E2.
    + rewrite (load_fallback w filename _ m d Hm E2). simpl. eauto.
    + rewrite (load_both_fail w filename _ m e Hm E2). simpl. eauto.
  - intros m e Hm He. rewrite analyze_csv_after_load. unfold bind.
    rewrite (load_both_fail w filename _ m e Hm He). simpl.
    repeat split; auto; lia.
Qed.

Lemma loader_two_encodings_then_exit_witness :
  trace (fst (run Samples.undecodable ∅)) =
    [ReadCsv "data/people.csv" UTF8; ReadCsv "data/people.csv" ISO_8859_1;
     Print "Error loading dataset: Error tokenizing data"] /\
  snd (run Samples.undecodable ∅) = SysExit 1 /\
  exit_status (snd (run Samples.undecodable ∅)) <> 0 /\
  disk (fst (run Samples.undecodable ∅)) = ∅.
Proof.
  assert (Ht : truthy (AIPROXY_TOKEN Samples.undecodable) = true) by reflexivity.
  assert (Ha : w_argv Samples.undecodable = ["autolysis.py"; "data/people.csv"])
    by reflexivity.
  destruct (loader_two_encodings_then_exit Samples.undecodable
              "autolysis.py" "data/people.csv" ∅ Ht Ha) as (_ & _ & H).
  apply (H "invalid start byte" (Exn OtherException "Error tokenizing data"));
    reflexivity.
Defined.

(** C10: only a [UnicodeDecodeError] of the UTF-8 attempt triggers the
    ISO-8859-1 attempt.  Any other exception of the first attempt leaves
    [analyze_csv] uncaught: there is no second attempt and no
    "Error loading dataset" line, and the interpreter exits on the exception. *)
Theorem fallback_only_on_decode_error (w : World) (filename : string)
    (files : gmap string string) :
  (forall e, w_read_csv w filename UTF8 = Raises e ->
     exn_cls e <> UnicodeDecodeError ->
     analyze_csv w filename (initial_state files) =
       (emit (initial_state files) [ReadCsv filename UTF8], Raise e) /\
     ~ In (ReadCsv filename ISO_8859_1)
          (trace (fst (analyze_csv w filename (initial_state files)))) /\
     forall m, ~ In (Print ("Error loading dataset: " +:+ m))
                    (trace (fst (analyze_csv w filename (initial_state files))))) /\
  (In (ReadCsv filename ISO_8859_1)
      (trace (fst (analyze_csv w filename (initial_state files)))) ->
   exists m, w_read_csv w filename UTF8 = Raises (Exn UnicodeDecodeError m)).
Proof.
  split.
  - intros e He Hc.
    assert (E : analyze_csv w filename (initial_state files) =
                (emit (initial_state files) [ReadCsv filename UTF8], Raise e)).
    { rewrite analyze_csv_after_load. unfold bind.
      now rewrite (load_uncaught w filename _ e He Hc). }
    rewrite E. simpl. repeat split.
    + intros [H|[]]. discriminate H.
    + intros m [H|[]]. discriminate H.
  - intros H. apply analyze_csv_reads in H.
    destruct (load_dataset_cases w filename (initial_state files))
      as [(d & _ & E)|[(m & d & Hm & _ & E)|[(m & e & Hm & _ & E)|(e & _ & _ & E)]]];
      rewrite E in H; simpl in H; eauto.
    + destruct H as [H|[H|[]]]; discriminate H.
    + destruct H as [H|[]]; discriminate H.
Qed.

Lemma fallback_only_on_decode_error_witness :
  analyze_csv Samples.missing_file "data/people.csv" (initial_state ∅) =
    (emit (initial_state ∅) [ReadCsv "data/people.csv" UTF8],
     Raise (Exn OtherException "No such file or directory")) /\
  ~ In (ReadCsv "data/people.csv" ISO_8859_1)
       (trace (fst (analyze_csv Samples.missing_file "data/people.csv" (initial_state ∅)))) /\
  forall m, ~ In (Print ("Error loading dataset: " +:+ m))
                 (trace (fst (analyze_csv Samples.missing_file "data/people.csv"
                                          (initial_state ∅)))).
Proof.
  apply (fallback_only_on_decode_error Samples.missing_file "data/people.csv" ∅).
  - reflexivity.
  - discriminate.
Defined.

(** ** The plots *)

Section Blocks.

Variable w : World.

(** Runs one plotting block, splitting on the answer of each library call. *)
Ltac run_block :=
  unfold try_except, bind, lift, ret, raise, plt_savefig, print, log, get,
    set_image_paths, set_correlation_matrix, set_disk, emit;
  repeat match goal with
         | |- context [match ?x with Returns _ => _ | Raises _ => _ end] =>
             destruct x eqn:?; simpl
         end.

(** Names the events the block logged on the path at hand. *)
Ltac close_block f :=
  repeat match goal with a : unit |- _ => destruct a end;
  first
    [ refine (ex_intro _ [Print _] _); split;
      [left; eauto | simpl; rewrite ?app_nil_r, <- ?app_assoc; reflexivity]
    | refine (ex_intro _ [SaveFig f false; Print _] _); split;
      [right; left; eauto | simpl; rewrite ?app_nil_r, <- ?app_assoc; reflexivity]
    | refine (ex_intro _ [SaveFig f true] _); split;
      [right; right; eauto | simpl; rewrite ?app_nil_r, <- ?app_assoc; reflexivity]
    | refine (ex_intro _ [SaveFig f true; Print _] _); split;
      [right; right; eauto 6 | simpl; rewrite ?app_nil_r, <- ?app_assoc; reflexivity] ].

Lemma missing_values_heatmap_run name s :
  exists evs,
    block_events w (missing_values_image name) evs /\
    missing_values_heatmap w name s =
      (after_block w (missing_values_image name) evs s (correlation_matrix s), Ret tt).
Proof.
  unfold missing_values_heatmap, after_block. run_block;
    close_block (missing_values_image name).
Qed.

Lemma boxplot_run name s :
  exists evs,
    block_events w (boxplot_image name) evs /\
    boxplot w name s =
      (after_block w (boxplot_image name) evs s (correlation_matrix s), Ret tt).
Proof.
  unfold boxplot, after_block. run_block; close_block (boxplot_image name).
Qed.

Lemma correlation_heatmap_run name numeric_cols s :
  exists evs,
    block_events w (correlation_image name) evs /\
    correlation_heatmap w name numeric_cols s =
      (after_block w (correlation_image name) evs s
                   (corr_after w numeric_cols (correlation_matrix s)), Ret tt).
Proof.
  unfold correlation_heatmap, after_block, corr_after. run_block;
    close_block (correlation_image name).
Qed.


Lemma images_distinct name :
  correlation_image name <> missing_values_image name /\
  correlation_image name <> boxplot_image name /\
  missing_values_image name <> boxplot_image name.
Proof. repeat split; apply suffix_neq; discriminate. Qed.

Lemma visualize_numeric name data s :
  empty (select_dtypes data) = false ->
  exists e1 e2 e3,
    block_events w (correlation_image name) e1 /\
    block_events w (missing_values_image name) e2 /\
    block_events w (boxplot_image name) e3 /\
    visualize w name data s =
      (after_block w (boxplot_image name) e3
         (after_block w (missing_values_image name) e2
            (after_block w (correlation_image name) e1 (reset s)
               (corr_after w (select_dtypes data) None))
            (corr_after w (select_dtypes data) None))
         (corr_after w (select_dtypes data) None), Ret tt).
Proof.
  intros He. unfold visualize, bind. simpl. rewrite He.
  fold (reset s).
  destruct (correlation_heatmap_run name (select_dtypes data) (reset s))
    as (e1 & S1 & ->).
  match goal with |- context [missing_values_heatmap w name ?s0] =>
    destruct (missing_values_heatmap_run name s0) as (e2 & S2 & ->) end.
  match goal with |- context [boxplot w name ?s0] =>
    destruct (boxplot_run name s0) as (e3 & S3 & ->) end.
  exists e1, e2, e3. repeat split; auto.
Qed.

Lemma visualize_not_numeric name data s :
  empty (select_dtypes data) = true ->
  visualize w name data s =
    (emit (reset s)
       [Print "Warning: No numeric columns found in the dataset. Skipping correlation analysis, boxplot, and heatmaps."],
     Ret tt).
Proof. intros He. unfold visualize, bind. simpl. now rewrite He. Qed.

(** The plots, as a whole: the new events [evs], and what the state holds
    afterwards. *)
Lemma visualize_run name data s :
  exists evs,
    snd (visualize w name data s) = Ret tt /\
    trace (fst (visualize w name data s)) = trace s ++ evs /\
    image_paths (fst (visualize w name data s)) = saved_files evs /\
    sublist (saved_files evs) (images name) /\
    (forall f, In (SaveFig f false) evs -> ~ In f (saved_files evs)) /\
    (forall f, In f (saved_files evs) ->
       exists bytes, w_savefig w f = Returns bytes /\
                     disk (fst (visualize w name data s)) !! f = Some bytes) /\
    correlation_matrix (fst (visualize w name data s)) =
      (if empty (select_dtypes data) then None
       else corr_after w (select_dtypes data) None).
Proof.
  destruct (empty (select_dtypes data)) eqn:He.
  - rewrite (visualize_not_numeric name data s He).
    eexists. simpl. repeat split; auto.
    + apply sublist_nil_l.
    + intros f [].
  - destruct (visualize_numeric name data s He) as (e1 & e2 & e3 & S1 & S2 & S3 & ->).
    exists (e1 ++ e2 ++ e3).
    destruct (images_distinct name) as (N12 & N13 & N23).
    destruct S1 as [[m1 ->]|[(m1 & x1 & -> & W1)|(b1 & W1 & [->|[m1 ->]])]];
    destruct S2 as [[m2 ->]|[(m2 & x2 & -> & W2)|(b2 & W2 & [->|[m2 ->]])]];
    destruct S3 as [[m3 ->]|[(m3 & x3 & -> & W3)|(b3 & W3 & [->|[m3 ->]])]];
    unfold after_block; simpl; rewrite ?W1, ?W2, ?W3; simpl;
    (split; [reflexivity|]);
    (split; [now rewrite <- ?app_assoc|]);
    (split; [reflexivity|]);
    (split; [unfold images;
             repeat first [apply sublist_nil_l | apply sublist_skip | apply sublist_cons]|]);
    (split; [intros f Hf; simpl in Hf; intros Hin; simpl in Hin;
             repeat match goal with
                    | H : _ \/ _ |- _ => destruct H
                    | H : False |- _ => destruct H
                    | H : SaveFig _ _ = SaveFig _ _ |- _ => inversion H; clear H
                    | H : Print _ = SaveFig _ _ |- _ => discriminate H
                    end; congruence|]);
    (split; [|reflexivity]);
    intros f Hin; simpl in Hin;
    repeat match goal with
           | H : _ \/ _ |- _ => destruct H
           | H : False |- _ => destruct H
           end; subst f; eexists; (split; [eassumption|]);
    now simplify_map_eq.
Qed.

End Blocks.

(** Checks the events of a short explicit list one by one. *)
Ltac all_events :=
  repeat first [apply List.Forall_nil | apply List.Forall_cons; [simpl; auto|]].

(** ** From the loader to the plots *)

Section Pipeline.

Variable w : World.

Lemma load_dataset_loaded filename s data :
  snd (load_dataset w filename s) = Ret data <-> loaded w filename = Some data.
Proof.
  unfold loaded.
  destruct (load_dataset_cases w filename s)
    as [(d & E1 & ->)|[(m & d & E1 & E2 & ->)|[(m & e & E1 & E2 & ->)|(e & E1 & Hc & ->)]]];
    rewrite E1, ?E2; simpl; try (split; congruence).
  destruct e as [[] m]; simpl in *; [congruence|]. split; congruence.
Qed.

(** Either the dataset is loaded and profiled and the plots are attempted,
    or the run stops in the state the loader left. *)
Lemma load_profile_visualize_cases filename s :
  (exists data summary missing_values,
     loaded w filename = Some data /\
     w_describe w data = Returns summary /\
     w_isnull_sum w data = Returns missing_values /\
     load_profile_visualize w filename s =
       (fst (visualize w (dataset_name_of filename) data
                       (fst (load_dataset w filename s))),
        Ret (summary, missing_values))) \/
  (exists o,
     load_profile_visualize w filename s = (fst (load_dataset w filename s), o) /\
     (forall profile, o <> Ret profile) /\
     forall data, ~ reaches_plots w filename data).
Proof.
  pose proof (load_dataset_loaded filename s) as HL.
  unfold load_profile_visualize, bind.
  destruct (load_dataset w filename s) as [sl [data|e|c]]; simpl in *.
  2,3: right; eexists; split; [reflexivity|]; split; [discriminate|];
       intros d (Hd & _); apply HL in Hd; discriminate.
  assert (Hdata : loaded w filename = Some data) by now apply HL.
  unfold lift.
  destruct (w_describe w data) as [summary|e] eqn:Ed; simpl.
  2: { right. eexists. split; [reflexivity|]. split; [discriminate|].
       intros d (Hd & (x & Hx) & _). congruence. }
  destruct (w_isnull_sum w data) as [missing_values|e] eqn:Em; simpl.
  2: { right. eexists. split; [reflexivity|]. split; [discriminate|].
       intros d (Hd & _ & (x & Hx)). congruence. }
  left. exists data, summary, missing_values. repeat split; auto.
  destruct (visualize_run w (dataset_name_of filename) data sl) as (evs & Ho & _).
  destruct (visualize w (dataset_name_of filename) data sl) as [sv o].
  simpl in *. subst o. reflexivity.
Qed.

End Pipeline.

(** ** The narrative *)

Section Narrator.

Variable w : World.

Lemma narrative_failure_excludes name summary missing cm story :
  narrative_failure w name summary missing cm ->
  ~ narrative_is w name summary missing cm story.
Proof.
  intros F (c & (ct & r & H1 & H2 & H3 & H4) & _).
  destruct F; congruence.
Qed.

Lemma narrate_cases name summary missing s :
  (narrative_failure w name summary missing (correlation_matrix s) /\
   exists evs, narrate w name summary missing s = (emit s evs, SysExit 1) /\
     Forall (fun e => is_print e \/
                      is_completion_post w name summary missing (correlation_matrix s) e)
            evs) \/
  (exists story ct,
     narrative_is w name summary missing (correlation_matrix s) story /\
     corr_text w (correlation_matrix s) = Returns ct /\
     narrate w name summary missing s =
       (emit s [HttpPost url (authorization w)
                  (data_for_api (prompt_text name summary missing ct))],
        Ret story)).
Proof.
  unfold narrate, try_except, bind, get, requests_post, print, log, lift,
    ret, raise, sys_exit.
  destruct (corr_text w (correlation_matrix s)) as [ct|e] eqn:Ec; simpl.
  2: { left. split; [eapply request_construction_raises; eauto|].
       eexists. split; [reflexivity|]. all_events. }
  destruct (w_post w url (authorization w)
              (data_for_api (prompt_text name summary missing ct)))
    as [resp|e] eqn:Ep; simpl.
  2: { left. split; [eapply post_raises; eauto|].
       eexists. split; [rewrite emit_emit; reflexivity|].
       all_events; right; eexists; eauto. }
  destruct (Z.eqb_spec (status_code resp) 200) as [E200|N200]; simpl.
  2: { left. split; [eapply status_not_200; eauto|].
       eexists. split; [rewrite emit_emit; reflexivity|].
       all_events; right; eexists; eauto. }
  destruct (resp_content resp) as [content|e] eqn:Er; simpl.
  - right. exists (strip content), ct. split; [|split; reflexivity].
    exists content. split; [|reflexivity]. exists ct, resp. auto.
  - left. split; [eapply response_parsing_raises; eauto|].
    eexists. split; [rewrite emit_emit; reflexivity|].
    all_events; right; eexists; eauto.
Qed.

End Narrator.

(** ** The report *)

Lemma app_empty_l s : EmptyString +:+ s = s.
Proof. reflexivity. Qed.

Lemma app_empty_r s : s +:+ EmptyString = s.
Proof. induction s as [|a s IH]; [reflexivity|]. rewrite app_cons. now rewrite IH. Qed.

Lemma app_assoc_str a b c : (a +:+ b) +:+ c = a +:+ (b +:+ c).
Proof. induction a as [|x a IH]; [reflexivity|]. rewrite !app_cons. now rewrite IH. Qed.

Lemma str_prefix_app text rest : String.prefix text (text +:+ rest) = true.
Proof.
  induction text as [|a t IH]; [now destruct rest|].
  rewrite app_cons. simpl. destruct (ascii_dec a a); [exact IH|congruence].
Qed.

Lemma set_file_id s path content :
  disk s !! path = Some content -> set_file s path content = s.
Proof. intros H. destruct s. unfold set_file. simpl in *. now rewrite insert_id. Qed.

Lemma set_file_twice s path a b :
  set_file (set_file s path a) path b = set_file s path b.
Proof. unfold set_file. simpl. now rewrite insert_insert_eq. Qed.

Section Reporter.

Variable w : World.

Lemma take_drop n s : take n s +:+ drop n s = s.
Proof.
  revert s. induction n as [|n IH]; intros [|a s]; try reflexivity.
  simpl. rewrite app_cons. now rewrite IH.
Qed.

Lemma f_write_run path data s content :
  disk s !! path = Some content ->
  f_write w path data s = (set_file s path (content +:+ data), Ret tt) \/
  exists e n,
    f_write w path data s = (set_file s path (content +:+ take n data), Raise e).
Proof.
  intros H. unfold f_write, file_content, bind, get, ret, set_disk, raise.
  rewrite H. simpl. destruct (w_write w path content data) as [[]|e]; simpl; eauto.
Qed.

Lemma for_each_map {A B} (g : A -> B) (l : list A) (f : B -> M unit) s :
  for_each (map g l) f s = for_each l (fun x => f (g x)) s.
Proof.
  revert s. induction l as [|x l IH]; intros s; [reflexivity|].
  simpl. unfold bind. destruct (f (g x) s) as [s1 [[]|e|c]]; auto.
Qed.

(** Writing the pieces one after the other: the file holds what was there
    followed by the beginning of the pieces put together; all of it when no
    write raised. *)
Lemma write_chunks_run path chunks s content :
  disk s !! path = Some content ->
  exists text o,
    for_each chunks (f_write w path) s =
      (set_file s path (content +:+ text), o) /\
    (exists rest, join chunks = text +:+ rest) /\
    ((o = Ret tt /\ text = join chunks) \/ exists e, o = Raise e).
Proof.
  revert s content. induction chunks as [|c chunks IH]; intros s content H.
  - exists EmptyString, (Ret tt). simpl. unfold ret.
    rewrite app_empty_r, set_file_id; auto.
    split; [reflexivity|]. split; [now exists EmptyString | auto].
  - simpl. unfold bind.
    destruct (f_write_run path c s content H) as [->|(e & n & ->)].
    + destruct (IH (set_file s path (content +:+ c)) (content +:+ c))
        as (text & o & -> & [rest Hr] & Ho).
      { simpl. apply lookup_insert_eq. }
      exists (c +:+ text), o. rewrite set_file_twice.
      rewrite app_assoc_str. split; [reflexivity|]. split.
      * exists rest. rewrite Hr. symmetry. apply app_assoc_str.
      * destruct Ho as [[-> ->]|[e ->]]; eauto.
    + exists (take n c), (Raise e). split; [reflexivity|]. split; [|eauto].
      exists (drop n c +:+ join chunks).
      now rewrite <- app_assoc_str, take_drop.
Qed.

Lemma write_readme_chunks name story paths s :
  write_readme w name story paths s =
    for_each (readme_chunks name story paths) (f_write w readme_path) s.
Proof.
  unfold write_readme, readme_chunks. simpl. unfold bind.
  repeat match goal with
         | |- context [f_write w readme_path ?d s] =>
             destruct (f_write w readme_path d s) as [? [[]|?|?]]; try reflexivity
         | |- context [f_write w readme_path ?d ?s0] =>
             destruct (f_write w readme_path d s0) as [? [[]|?|?]]; try reflexivity
         end.
  symmetry. apply for_each_map.
Qed.

(** The reporter: when [README.md] cannot be opened nothing is written;
    otherwise the file holds the beginning of the report, all of it exactly
    when the run ends normally, with the line that says so. *)
Lemma report_run name story s :
  (exists e, w_open w readme_path = Raises e /\
     report w name story s =
       (emit s [OpenW readme_path false;
                Print ("Error saving README.md: " +:+ exn_msg e)], SysExit 1)) \/
  (exists text,
     w_open w readme_path = Returns tt /\
     (exists rest, join (readme_chunks name story (image_paths s)) = text +:+ rest) /\
     ((text = join (readme_chunks name story (image_paths s)) /\
       report w name story s =
         (set_file (emit s [OpenW readme_path true; Print (complete_line name)])
                   readme_path text, Ret tt)) \/
      (exists e,
         report w name story s =
           (set_file (emit s [OpenW readme_path true;
                              Print ("Error saving README.md: " +:+ exn_msg e)])
                     readme_path text, SysExit 1)))).
Proof.
  unfold report, try_except, with_open_w, open_w.
  unfold bind at 1 2 3. unfold get at 1.
  destruct (w_open w readme_path) as [[]|e] eqn:Eo.
  2: { left. exists e. split; [reflexivity|].
       unfold bind, log, raise, print, sys_exit. simpl.
       now rewrite emit_emit. }
  right. unfold bind, get, log, set_disk. simpl. rewrite write_readme_chunks.
  match goal with |- context [for_each ?ch ?f ?s0] =>
    destruct (write_chunks_run readme_path ch s0 EmptyString)
      as (text & o & -> & [rest Hr] & Ho)
  end.
  { simpl. apply lookup_insert_eq. }
  unfold f_close, file_content, bind, get, ret, raise, set_disk. simpl.
  rewrite lookup_insert_eq. simpl. rewrite !app_empty_l.
  destruct (w_fclose w readme_path text) as [[]|e'].
  - exists text. split; [reflexivity|]. split; [now exists rest|].
    destruct Ho as [[-> ->]|[e ->]]; simpl;
      unfold print, log, sys_exit, raise, bind, set_file, emit, complete_line; simpl;
      rewrite ?insert_insert_eq, <- ?app_assoc; simpl;
      first [left; split; reflexivity | right; eexists; reflexivity].
  - exists (take (w_fclose_partial w readme_path text) text).
    split; [reflexivity|]. split.
    { exists (drop (w_fclose_partial w readme_path text) text +:+ rest).
      transitivity (text +:+ rest); [exact Hr|].
      now rewrite <- (app_assoc_str (take _ text) (drop _ text) rest), take_drop. }
    right. exists e'.
    destruct Ho as [[-> ->]|[e ->]]; simpl;
      unfold print, log, sys_exit, raise, bind, set_file, emit; simpl;
      rewrite ?insert_insert_eq, <- ?app_assoc; reflexivity.
Qed.

(** The same, without the printed line and the beginning. *)
Lemma report_cases name story s :
  (exists e, w_open w readme_path = Raises e /\
     report w name story s =
       (emit s [OpenW readme_path false;
                Print ("Error saving README.md: " +:+ exn_msg e)], SysExit 1)) \/
  (exists text m o,
     w_open w readme_path = Returns tt /\
     report w name story s =
       (set_file (emit s [OpenW readme_path true; Print m]) readme_path text, o) /\
     ((o = Ret tt /\ text = join (readme_chunks name story (image_paths s))) \/
      o = SysExit 1)).
Proof.
  destruct (report_run name story s) as [H|(text & Ho & _ & [[-> ->]|[e ->]])];
    [now left| |]; right; eexists _, _, _; eauto.
Qed.

End Reporter.

(** ** The whole of [analyze_csv] *)

Lemma saved_files_app a b : saved_files (a ++ b) = saved_files a ++ saved_files b.
Proof. unfold saved_files. apply flat_map_app. Qed.

Lemma saved_files_none evs : Forall not_savefig evs -> saved_files evs = [].
Proof.
  induction 1 as [|e evs He _ IH]; [reflexivity|].
  destruct e; simpl in *; auto; contradiction.
Qed.

Lemma not_savefig_in evs f b : Forall not_savefig evs -> ~ In (SaveFig f b) evs.
Proof.
  intros F H. rewrite Forall_forall in F.
  apply list_elem_of_In, F in H. exact H.
Qed.

Section Whole.

Variable w : World.

Lemma narrate_report_frame name profile :
  respects (evolves (fun e => is_print e \/ is_post e \/ is_open readme_path e)
                    (fun p => p = readme_path) true true)
           (narrate_report w name profile).
Proof. unfold narrate_report, narrate, report, write_readme. frame; simpl; auto. Qed.

(** The state in which the narrator starts, or in which the run stopped
    before: its trace is the loader's events [pre] followed by the plots'
    events [vis]. *)
Lemma load_profile_visualize_run filename files :
  exists pre vis,
    trace (fst (load_profile_visualize w filename (initial_state files))) = pre ++ vis /\
    Forall (fun e => is_print e \/ is_read filename e) pre /\
    Forall (fun e => is_print e \/ is_savefig (images (dataset_name_of filename)) e) vis /\
    image_paths (fst (load_profile_visualize w filename (initial_state files))) =
      saved_files vis /\
    sublist (saved_files vis) (images (dataset_name_of filename)) /\
    (forall f, In (SaveFig f false) vis -> ~ In f (saved_files vis)) /\
    (forall f, In f (saved_files vis) ->
       exists bytes, w_savefig w f = Returns bytes /\
         disk (fst (load_profile_visualize w filename (initial_state files))) !! f =
           Some bytes) /\
    (forall p, ~ In p (images (dataset_name_of filename)) ->
       disk (fst (load_profile_visualize w filename (initial_state files))) !! p =
         files !! p).
Proof.
  destruct (load_dataset_frame w filename (initial_state files))
    as ((pre & Tl & Fl) & Dl & Il & Cl).
  simpl in Tl, Il, Cl, Dl. specialize (Il eq_refl).
  destruct (load_profile_visualize_cases w filename (initial_state files))
    as [(data & sm & mv & _ & _ & _ & ->)|(o & -> & _)]; simpl.
  - destruct (visualize_run w (dataset_name_of filename) data
                (fst (load_dataset w filename (initial_state files))))
      as (vis & _ & Tv & Iv & Sv & Fv & Dv & _).
    destruct (visualize_frame w (dataset_name_of filename) data
                (fst (load_dataset w filename (initial_state files))))
      as ((vis' & Tv' & Fv') & Dv' & _).
    rewrite Tv in Tv'. apply app_inv_head in Tv'. subst vis'.
    exists pre, vis. rewrite Tv, Tl. repeat split; auto.
    intros p Hp. rewrite Dv' by exact Hp. apply Dl. unfold nowhere. tauto.
  - exists pre, []. rewrite Tl, Il. simpl. rewrite app_nil_r.
    repeat split; auto.
    + apply sublist_nil_l.
    + intros f [].
Qed.

(** Where the run goes on after the plots, and where it stops. *)
Lemma analyze_csv_cases filename s :
  (exists profile,
     snd (load_profile_visualize w filename s) = Ret profile /\
     analyze_csv w filename s =
       narrate_report w (dataset_name_of filename) profile
         (fst (load_profile_visualize w filename s))) \/
  ((forall profile, snd (load_profile_visualize w filename s) <> Ret profile) /\
   fst (analyze_csv w filename s) = fst (load_profile_visualize w filename s) /\
   snd (analyze_csv w filename s) <> Ret tt).
Proof.
  unfold analyze_csv, bind.
  destruct (load_profile_visualize w filename s) as [s1 [profile|e|c]]; simpl;
    [left; eauto|right..]; repeat split; auto; discriminate.
Qed.

Lemma images_not_readme name p : In p (images name) -> p <> readme_path.
Proof.
  intros [<-|[<-|[<-|[]]]]; apply image_neq_readme; simpl; lia.
Qed.

(** The whole trace: the loader's events, the plots' events, and the events
    of the narrator and the reporter; with the two locals as the plots left
    them, and the saved images still on disk. *)
Lemma analyze_csv_run filename files :
  exists pre vis post,
    trace (fst (analyze_csv w filename (initial_state files))) = pre ++ vis ++ post /\
    Forall (fun e => is_print e \/ is_read filename e) pre /\
    Forall (fun e => is_print e \/ is_savefig (images (dataset_name_of filename)) e) vis /\
    Forall (fun e => is_print e \/ is_post e \/ is_open readme_path e) post /\
    image_paths (fst (analyze_csv w filename (initial_state files))) = saved_files vis /\
    sublist (saved_files vis) (images (dataset_name_of filename)) /\
    (forall f, In (SaveFig f false) vis -> ~ In f (saved_files vis)) /\
    (forall f, In f (saved_files vis) ->
       exists bytes, w_savefig w f = Returns bytes /\
         disk (fst (analyze_csv w filename (initial_state files))) !! f = Some bytes) /\
    (forall p, ~ In p (images (dataset_name_of filename)) -> p <> readme_path ->
       disk (fst (analyze_csv w filename (initial_state files))) !! p = files !! p).
Proof.
  destruct (load_profile_visualize_run filename files)
    as (pre & vis & T & Fp & Fv & I1 & Sub & Fail & Saved & Other).
  exists pre, vis.
  destruct (analyze_csv_cases filename (initial_state files))
    as [(profile & _ & ->)|(_ & -> & _)].
  - destruct (narrate_report_frame (dataset_name_of filename) profile
                (fst (load_profile_visualize w filename (initial_state files))))
      as ((post & Tp & Fpost) & D & I & C).
    exists post. rewrite Tp, T, <- app_assoc, (I eq_refl). repeat split; auto.
    + intros f Hf. destruct (Saved f Hf) as (bytes & Hw & Hd).
      exists bytes. split; [exact Hw|]. rewrite D; [exact Hd|].
      eapply images_not_readme, list_elem_of_In, elem_of_sublist; [|exact Sub].
      now apply list_elem_of_In.
    + intros p Hp Hr. rewrite D by exact Hr. now apply Other.
  - exists []. rewrite T, app_nil_r. repeat split; auto.
Qed.

End Whole.


(** ** After the plots: narrative, then report *)

Section NarrateReport.

Variable w : World.

Lemma narrate_report_cases name profile s :
  (narrative_failure w name (fst profile) (snd profile) (correlation_matrix s) /\
   exists evs,
     narrate_report w name profile s = (emit s evs, SysExit 1) /\
     Forall (fun e => is_print e \/
                      is_completion_post w name (fst profile) (snd profile)
                                         (correlation_matrix s) e) evs) \/
  (exists story ct,
     narrative_is w name (fst profile) (snd profile) (correlation_matrix s) story /\
     corr_text w (correlation_matrix s) = Returns ct /\
     narrate_report w name profile s =
       report w name story
         (emit s [HttpPost url (authorization w)
                    (data_for_api (prompt_text name (fst profile) (snd profile) ct))])).
Proof.
  unfold narrate_report, bind.
  destruct (narrate_cases w name (fst profile) (snd profile) s)
    as [(F & evs & -> & Fe)|(story & ct & N & Hc & ->)].
  - left. split; [exact F|]. eauto.
  - right. exists story, ct. auto.
Qed.

(** Every request posted in a run is the narrator's, built for the matrix
    the plots left. *)
Lemma narrate_report_posts name profile s u a body :
  In (HttpPost u a body) (trace (fst (narrate_report w name profile s))) ->
  In (HttpPost u a body) (trace s) \/
  is_completion_post w name (fst profile) (snd profile) (correlation_matrix s)
                     (HttpPost u a body).
Proof.
  destruct (narrate_report_cases name profile s)
    as [(_ & evs & -> & Fe)|(story & ct & _ & Hc & ->)]; simpl.
  - rewrite in_app_iff. intros [H|H]; [now left|right].
    rewrite Forall_forall in Fe. apply list_elem_of_In, Fe in H.
    destruct H as [[]|H]; exact H.
  - match goal with |- context [report w name story ?s2] =>
      destruct (report_frame w name story s2) as ((evs & -> & Fe) & _) end.
    simpl. rewrite !in_app_iff. intros [[H|H]|H]; [now left| |].
    + right. destruct H as [<-|[]]. exists ct. auto.
    + rewrite Forall_forall in Fe. apply list_elem_of_In, Fe in H.
      simpl in H. tauto.
Qed.

End NarrateReport.
(** C6: in every run the final [image_paths] has at most three entries; they
    appear in the order correlation heatmap, missing-values heatmap, boxplot;
    the list is exactly the sequence of files that [plt.savefig] saved, so a
    name is there only when its save succeeded, and the name of a file whose
    save failed is not there. *)
Theorem image_paths_are_the_saved_files (w : World) (filename : string)
    (files : gmap string string) :
  (length (image_paths (fst (analyze_csv w filename (initial_state files)))) <= 3)%nat /\
  sublist (image_paths (fst (analyze_csv w filename (initial_state files))))
          [correlation_image (dataset_name_of filename);
           missing_values_image (dataset_name_of filename);
           boxplot_image (dataset_name_of filename)] /\
  image_paths (fst (analyze_csv w filename (initial_state files))) =
    saved_files (trace (fst (analyze_csv w filename (initial_state files)))) /\
  (forall f, In (SaveFig f false) (trace (fst (analyze_csv w filename (initial_state files)))) ->
     ~ In f (image_paths (fst (analyze_csv w filename (initial_state files))))).
Proof.
  destruct (analyze_csv_run w filename files)
    as (pre & vis & post & -> & Fp & Fv & Fq & -> & Sub & Fail & _).
  assert (Np : Forall not_savefig pre).
  { eapply Forall_impl; [exact Fp|]. intros []; simpl; tauto. }
  assert (Nq : Forall not_savefig post).
  { eapply Forall_impl; [exact Fq|]. intros []; simpl; tauto. }
  split; [|split; [|split]].
  - apply sublist_length in Sub. exact Sub.
  - exact Sub.
  - rewrite !saved_files_app, (saved_files_none pre Np), (saved_files_none post Nq).
    simpl. now rewrite app_nil_r.
  - intros f Hf. apply in_app_or in Hf as [Hf|Hf].
    { now apply not_savefig_in in Hf. }
    apply in_app_or in Hf as [Hf|Hf]; [now apply Fail|].
    now apply not_savefig_in in Hf.
Qed.

(** ** The correlation matrix *)

Lemma filter_none_existsb {A} (f : A -> bool) (l : list A) :
  (length (List.filter f l) =? 0)%nat = negb (existsb f l).
Proof.
  induction l as [|x l IH]; [reflexivity|].
  simpl. destruct (f x); simpl; auto.
Qed.

Lemma numeric_subset_nonempty data :
  csv_frame data ->
  empty (select_dtypes data) = false <-> has_numeric_column data = true.
Proof.
  intros Hcsv. unfold empty, select_dtypes, csv_frame, has_numeric_column in *.
  simpl. rewrite filter_none_existsb.
  destruct (Nat.eqb_spec (df_rows data) 0) as [E|N]; simpl.
  - rewrite (Hcsv E). split; discriminate.
  - destruct (existsb _ _); simpl; split; congruence.
Qed.

Lemma corr_after_some w numeric_cols :
  corr_after w numeric_cols None <> None <->
  w_figure w Correlation = Returns tt /\ exists cm, w_corr w numeric_cols = Returns cm.
Proof.
  unfold corr_after.
  destruct (w_figure w Correlation) as [[]|e]; [|split; [congruence|intros [? _]; congruence]].
  destruct (w_corr w numeric_cols) as [cm|e]; split; try congruence; eauto.
  intros [_ [cm H]]. congruence.
Qed.

Section Locals.

Variable w : World.

Lemma analyze_csv_locals filename s :
  image_paths (fst (analyze_csv w filename s)) =
    image_paths (fst (load_profile_visualize w filename s)) /\
  correlation_matrix (fst (analyze_csv w filename s)) =
    correlation_matrix (fst (load_profile_visualize w filename s)).
Proof.
  destruct (analyze_csv_cases w filename s) as [(profile & _ & ->)|(_ & -> & _)]; auto.
  destruct (narrate_report_frame w (dataset_name_of filename) profile
              (fst (load_profile_visualize w filename s))) as (_ & _ & I & C).
  auto.
Qed.

(** The matrix the plots leave, read off the world. *)
Lemma correlation_matrix_after_plots filename files :
  (exists data, reaches_plots w filename data /\
     correlation_matrix (fst (load_profile_visualize w filename (initial_state files))) =
       if empty (select_dtypes data) then None
       else corr_after w (select_dtypes data) None) \/
  ((forall data, ~ reaches_plots w filename data) /\
   correlation_matrix (fst (load_profile_visualize w filename (initial_state files))) = None).
Proof.
  destruct (load_profile_visualize_cases w filename (initial_state files))
    as [(data & sm & mv & Hl & Hd & Hm & ->)|(o & -> & _ & Hn)]; simpl.
  - left. exists data. split; [repeat split; eauto|].
    destruct (visualize_run w (dataset_name_of filename) data
                (fst (load_dataset w filename (initial_state files))))
      as (evs & _ & _ & _ & _ & _ & _ & ->).
    reflexivity.
  - right. split; [exact Hn|].
    destruct (load_dataset_frame w filename (initial_state files)) as (_ & _ & _ & C).
    now rewrite C.
Qed.

End Locals.

(** C1, as stated, fails: when [sns.heatmap] raises for the correlation
    heatmap, the dataset has a numeric column and the heatmap was not
    generated (no file saved, the error logged), and yet
    [correlation_matrix] is set. *)
Lemma correlation_matrix_set_though_heatmap_failed :
  has_numeric_column Samples.people = true /\
  correlation_matrix
    (fst (analyze_csv Samples.heatmap_fails "data/people.csv" (initial_state ∅))) <> None /\
  In (Print "Error generating correlation heatmap: boom")
     (trace (fst (analyze_csv Samples.heatmap_fails "data/people.csv" (initial_state ∅)))) /\
  ~ In (SaveFig "people_correlation_heatmap.png" true)
       (trace (fst (analyze_csv Samples.heatmap_fails "data/people.csv" (initial_state ∅)))) /\
  ~ In "people_correlation_heatmap.png"
       (image_paths (fst (analyze_csv Samples.heatmap_fails "data/people.csv"
                                      (initial_state ∅)))).
Proof.
  vm_compute. repeat split; try discriminate; auto.
  - intros H. repeat (destruct H as [H|H]; [discriminate H|]). exact H.
  - intros H. repeat (destruct H as [H|H]; [discriminate H|]). exact H.
Qed.

(** C1, amended: in every run of [analyze_csv], [correlation_matrix] is
    non-null if and only if the run reaches the plots with a dataset that has
    a numeric column and both [plt.figure] and [numeric_cols.corr()] return,
    whether or not the heatmap is then drawn and saved; and when it is null,
    every prompt that is posted carries 'N/A' in its place. *)
Theorem correlation_matrix_present_iff_computed (w : World) (filename : string)
    (files : gmap string string) :
  (forall data, loaded w filename = Some data -> csv_frame data) ->
  (correlation_matrix (fst (analyze_csv w filename (initial_state files))) <> None <->
   exists data,
     reaches_plots w filename data /\
     has_numeric_column data = true /\
     w_figure w Correlation = Returns tt /\
     exists cm, w_corr w (select_dtypes data) = Returns cm) /\
  (correlation_matrix (fst (analyze_csv w filename (initial_state files))) = None ->
   forall u a body,
     In (HttpPost u a body) (trace (fst (analyze_csv w filename (initial_state files)))) ->
     exists summary missing_values,
       body = data_for_api (prompt_text (dataset_name_of filename)
                                        summary missing_values "N/A")).
Proof.
  intros Hcsv.
  destruct (analyze_csv_locals w filename (initial_state files)) as [_ EC].
  split.
  - rewrite EC.
    destruct (correlation_matrix_after_plots w filename files)
      as [(data & Hr & ->)|(Hn & ->)].
    + pose proof (numeric_subset_nonempty data (Hcsv data (proj1 Hr))) as Hnum.
      split.
      * intros H. exists data. split; [exact Hr|].
        destruct (empty (select_dtypes data)); [congruence|].
        split; [now apply Hnum|]. now apply corr_after_some.
      * intros (data' & Hr' & Hn' & Hf & Hc).
        assert (data' = data) by (destruct Hr, Hr'; congruence). subst data'.
        apply Hnum in Hn'. rewrite Hn'. apply corr_after_some. auto.
    + split; [congruence|]. intros (data & Hr & _). now apply Hn in Hr.
  - intros Hnone u a body Hin. rewrite EC in Hnone.
    destruct (load_profile_visualize_run w filename files)
      as (pre & vis & T & Fp & Fv & _).
    assert (Hno : ~ In (HttpPost u a body)
                     (trace (fst (load_profile_visualize w filename (initial_state files))))).
    { rewrite T, in_app_iff. rewrite Forall_forall in Fp, Fv.
      intros [H|H]; apply list_elem_of_In in H;
        [apply Fp in H|apply Fv in H]; simpl in H; tauto. }
    destruct (analyze_csv_cases w filename (initial_state files))
      as [(profile & _ & E)|(_ & E & _)]; rewrite E in Hin; [|contradiction].
    apply narrate_report_posts in Hin as [Hin|(ct & Hct & Hb)]; [contradiction|].
    rewrite Hnone in Hct. simpl in Hct. injection Hct as <-.
    injection Hb as _ _ ->. eauto.
Qed.

Lemma correlation_matrix_present_iff_computed_witness :
  (correlation_matrix
     (fst (analyze_csv Samples.happy "data/people.csv" (initial_state ∅))) <> None <->
   exists data,
     reaches_plots Samples.happy "data/people.csv" data /\
     has_numeric_column data = true /\
     w_figure Samples.happy Correlation = Returns tt /\
     exists cm, w_corr Samples.happy (select_dtypes data) = Returns cm) /\
  (correlation_matrix
     (fst (analyze_csv Samples.happy "data/people.csv" (initial_state ∅))) = None ->
   forall u a body,
     In (HttpPost u a body)
        (trace (fst (analyze_csv Samples.happy "data/people.csv" (initial_state ∅)))) ->
     exists summary missing_values,
       body = data_for_api (prompt_text (dataset_name_of "data/people.csv")
                                        summary missing_values "N/A")).
Proof.
  apply (correlation_matrix_present_iff_computed Samples.happy "data/people.csv" ∅).
  intros data H. injection H as <-. intros Hrows. discriminate Hrows.
Defined.

(** ** Fatal failures after the plots *)

Section Fatal.

Variable w : World.

(** Before the narrator starts, [README.md] is as it was and nothing has
    tried to open it. *)
Lemma readme_untouched_by_plots filename files :
  disk (fst (load_profile_visualize w filename (initial_state files))) !! readme_path =
    files !! readme_path /\
  forall b, ~ In (OpenW readme_path b)
                 (trace (fst (load_profile_visualize w filename (initial_state files)))).
Proof.
  destruct (load_profile_visualize_run w filename files)
    as (pre & vis & T & Fp & Fv & _ & _ & _ & _ & Other).
  split.
  - apply Other. intros H. now apply images_not_readme in H.
  - intros b. rewrite T, in_app_iff. rewrite Forall_forall in Fp, Fv.
    intros [H|H]; apply list_elem_of_In in H;
      [apply Fp in H|apply Fv in H]; simpl in H; tauto.
Qed.

(** A failed narrative ends the run with status 1 in the state the plots
    left, but for the lines printed and the request posted. *)
Lemma narrative_failure_stops filename s profile :
  snd (load_profile_visualize w filename s) = Ret profile ->
  narrative_failure w (dataset_name_of filename) (fst profile) (snd profile)
    (correlation_matrix (fst (load_profile_visualize w filename s))) ->
  exists evs,
    analyze_csv w filename s =
      (emit (fst (load_profile_visualize w filename s)) evs, SysExit 1) /\
    Forall (fun e => is_print e \/ is_post e) evs.
Proof.
  intros Hp Hf.
  destruct (analyze_csv_cases w filename s) as [(profile' & Hp' & ->)|(Hn & _)];
    [|now apply Hn in Hp].
  assert (profile' = profile) by congruence. subst profile'.
  destruct (narrate_report_cases w (dataset_name_of filename) profile
              (fst (load_profile_visualize w filename s)))
    as [(_ & evs & -> & Fe)|(story & ct & N & _)].
  - exists evs. split; [reflexivity|].
    eapply Forall_impl; [exact Fe|]. intros e [H|(ct & _ & ->)]; simpl; auto.
  - now apply narrative_failure_excludes with (story := story) in Hf.
Qed.

End Fatal.

(** C3: when the completion response has a status other than 200, or an
    exception is raised while the request is built or posted or the response
    is read, the process exits with status 1, [README.md] is never opened for
    writing and is on disk as it was before the run. *)
Theorem failed_completion_exits_without_readme (w : World) (prog filename : string)
    (files : gmap string string) (profile : string * string) :
  truthy (AIPROXY_TOKEN w) = true ->
  w_argv w = [prog; filename] ->
  snd (load_profile_visualize w filename (initial_state files)) = Ret profile ->
  narrative_failure w (dataset_name_of filename) (fst profile) (snd profile)
    (correlation_matrix (fst (load_profile_visualize w filename (initial_state files)))) ->
  snd (run w files) = SysExit 1 /\
  exit_status (snd (run w files)) <> 0 /\
  (forall b, ~ In (OpenW readme_path b) (trace (fst (run w files)))) /\
  disk (fst (run w files)) !! readme_path = files !! readme_path.
Proof.
  intros Ht Ha Hp Hf. rewrite (run_analyze w prog filename files Ht Ha).
  destruct (narrative_failure_stops w filename _ profile Hp Hf) as (evs & -> & Fe).
  destruct (readme_untouched_by_plots w filename files) as [Hd Ho].
  simpl. repeat split; auto; try lia.
  intros b. rewrite in_app_iff. intros [H|H]; [now apply Ho in H|].
  rewrite Forall_forall in Fe. apply list_elem_of_In, Fe in H. simpl in H. tauto.
Qed.

Lemma failed_completion_exits_without_readme_witness :
  snd (run Samples.http_500 ∅) = SysExit 1 /\
  exit_status (snd (run Samples.http_500 ∅)) <> 0 /\
  (forall b, ~ In (OpenW readme_path b) (trace (fst (run Samples.http_500 ∅)))) /\
  disk (fst (run Samples.http_500 ∅)) !! readme_path = (∅ : gmap string string) !! readme_path.
Proof.
  apply (failed_completion_exits_without_readme Samples.http_500
           "autolysis.py" "data/people.csv" ∅
           ("{'age': {'count': 2.0}}", "{'name': 0, 'age': 0}")).
  - reflexivity.
  - reflexivity.
  - vm_compute. reflexivity.
  - apply status_not_200 with
      (ct := "{'age': {'age': 1.0}}")
      (response := {| status_code := 500; resp_text := "Internal Server Error";
                      resp_content := Raises Samples.boom |}).
    + vm_compute. reflexivity.
    + reflexivity.
    + simpl. lia.
Defined.




(** ** The report of a successful run *)

Lemma embed_lines_images filename paths :
  (forall p, In p paths -> In p (images (dataset_name_of filename))) ->
  map embed_line paths = map image_line paths.
Proof.
  intros H. apply map_ext_in. intros p Hp. apply H in Hp.
  unfold embed_line, image_line.
  destruct Hp as [<-|[<-|[<-|[]]]];
    unfold correlation_image, missing_values_image, boxplot_image;
    now rewrite basename_image by reflexivity.
Qed.

Lemma join_readme_chunks filename story paths :
  (forall p, In p paths -> In p (images (dataset_name_of filename))) ->
  join (readme_chunks (dataset_name_of filename) story paths) =
    readme_text (dataset_name_of filename) story paths.
Proof.
  intros H. unfold readme_chunks, readme_text.
  rewrite (embed_lines_images filename paths H). simpl.
  now rewrite !app_assoc_str.
Qed.

Section Success.

Variable w : World.

(** A run that ends normally had the token and exactly one argument. *)
Lemma run_success files :
  snd (run w files) = Ret tt ->
  run w files = analyze_csv w (nth 1 (w_argv w) EmptyString) (initial_state files).
Proof.
  unfold run, script, bind.
  destruct (truthy (AIPROXY_TOKEN w)); simpl; [|discriminate].
  destruct (length (w_argv w) =? 2)%nat; simpl; [reflexivity|discriminate].
Qed.

Lemma analyze_csv_success filename files :
  snd (analyze_csv w filename (initial_state files)) = Ret tt ->
  exists story summary missing_values cm,
    narrative_is w (dataset_name_of filename) summary missing_values cm story /\
    disk (fst (analyze_csv w filename (initial_state files))) !! readme_path =
      Some (readme_text (dataset_name_of filename) story
              (image_paths (fst (analyze_csv w filename (initial_state files))))).
Proof.
  intros Hok.
  destruct (analyze_csv_locals w filename (initial_state files)) as [EI _].
  rewrite EI.
  destruct (load_profile_visualize_run w filename files)
    as (pre & vis & _ & _ & _ & I1 & Sub & _).
  destruct (analyze_csv_cases w filename (initial_state files))
    as [(profile & Hp & E)|(_ & _ & Hn)]; [|contradiction].
  rewrite E in Hok |- *.
  destruct (narrate_report_cases w (dataset_name_of filename) profile
              (fst (load_profile_visualize w filename (initial_state files))))
    as [(_ & evs & E' & _)|(story & ct & N & _ & E')]; rewrite E' in Hok |- *;
    [discriminate Hok|].
  exists story, (fst profile), (snd profile). eexists. split; [exact N|].
  match goal with |- context [report w ?n story ?s2] =>
    destruct (report_cases w n story s2)
      as [(e' & _ & E2)|(written & m & o & _ & E2 & Ho)] end;
    rewrite E2 in Hok |- *; [discriminate Hok|].
  simpl in Hok. destruct Ho as [[_ ->]| ->]; [|discriminate Hok].
  simpl. rewrite lookup_insert_eq. f_equal.
  apply join_readme_chunks. intros p Hin. rewrite I1 in Hin.
  eapply list_elem_of_In, elem_of_sublist; [|exact Sub]. now apply list_elem_of_In.
Qed.

End Success.

Lemma strip_hello_world : strip "Hello world" = "Hello world".
Proof. reflexivity. Qed.

(** The same content between a no-break space (U+00A0), an em space
    (U+2003), a next-line character (U+0085) and a line feed. *)
Lemma strip_unicode_whitespace :
  strip (utf8 160 +:+ utf8 8195 +:+ "Hello world" +:+ utf8 133 +:+ nl) =
    "Hello world".
Proof. reflexivity. Qed.

(** Every whitespace character is removed from both ends, whatever is in
    between stays. *)
Lemma strip_each_whitespace :
  forallb (fun cp => String.eqb (strip (utf8 cp +:+ "a" +:+ utf8 cp +:+ "b" +:+ utf8 cp))
                                ("a" +:+ utf8 cp +:+ "b"))
          whitespace = true.
Proof. vm_compute. reflexivity. Qed.

(** C5: after a successful run, [README.md] holds, in this order, the
    heading naming the dataset, the fixed headings, the narrative (the
    content of the completion, stripped) as it is, the heading of the
    visualizations, and one image-embed line per entry of [image_paths] with
    the file name as alt text and as path.  A completion with content
    "Hello world" puts exactly "Hello world" between the headings. *)
Theorem readme_of_successful_run (w : World) (files : gmap string string) :
  snd (run w files) = Ret tt ->
  let filename := nth 1 (w_argv w) EmptyString in
  let dataset_name := dataset_name_of filename in
  let image_lines :=
    join (map (fun p => "![" +:+ p +:+ "](" +:+ p +:+ ")" +:+ nl)
              (image_paths (fst (run w files)))) in
  exists content summary missing_values cm,
    completion_content w dataset_name summary missing_values cm content /\
    disk (fst (run w files)) !! readme_path =
      Some ("# Analysis of " +:+ dataset_name +:+ nl +:+ nl +:+
            "## Dataset Insights and Recommendations" +:+ nl +:+ nl +:+
            "### Business Report" +:+ nl +:+
            strip content +:+
            nl +:+ nl +:+ "### Visualizations" +:+ nl +:+
            image_lines) /\
    (content = "Hello world" ->
     disk (fst (run w files)) !! readme_path =
       Some ("# Analysis of " +:+ dataset_name +:+ nl +:+ nl +:+
             "## Dataset Insights and Recommendations" +:+ nl +:+ nl +:+
             "### Business Report" +:+ nl +:+
             "Hello world" +:+
             nl +:+ nl +:+ "### Visualizations" +:+ nl +:+
             image_lines)).
Proof.
  intros Hok filename dataset_name image_lines.
  subst filename dataset_name image_lines.
  rewrite (run_success w files Hok) in Hok |- *.
  destruct (analyze_csv_success w _ files Hok)
    as (story & sm & mv & cm & (content & N & ->) & D).
  exists content, sm, mv, cm. split; [exact N|]. split; [exact D|].
  intros ->. exact D.
Qed.

Lemma readme_of_successful_run_witness :
  disk (fst (run Samples.happy ∅)) !! readme_path =
    Some ("# Analysis of people" +:+ nl +:+ nl +:+
          "## Dataset Insights and Recommendations" +:+ nl +:+ nl +:+
          "### Business Report" +:+ nl +:+
          "Hello world" +:+
          nl +:+ nl +:+ "### Visualizations" +:+ nl +:+
          "![people_correlation_heatmap.png](people_correlation_heatmap.png)" +:+ nl +:+
          "![people_missing_values_heatmap.png](people_missing_values_heatmap.png)" +:+ nl +:+
          "![people_boxplot.png](people_boxplot.png)" +:+ nl).
Proof.
  assert (Hok : snd (run Samples.happy ∅) = Ret tt) by (vm_compute; reflexivity).
  destruct (readme_of_successful_run Samples.happy ∅ Hok)
    as (content & sm & mv & cm & (ct & r & _ & Hpost & _ & Hc) & _ & D).
  injection Hpost as <-. injection Hc as <-.
  rewrite (D eq_refl). vm_compute. reflexivity.
Defined.

(** ** Two more runs *)

(** A dataset without numeric columns: one warning, no image, 'N/A' in the
    prompt, and the report is written all the same. *)
Example text_only_run :
  let r := run Samples.text_only ∅ in
  snd r = Ret tt /\
  image_paths (fst r) = [] /\
  correlation_matrix (fst r) = None /\
  In (Print "Warning: No numeric columns found in the dataset. Skipping correlation analysis, boxplot, and heatmaps.")
     (trace (fst r)) /\
  In (HttpPost url "Bearer secret"
        (data_for_api (prompt_text "people" "{'age': {'count': 2.0}}"
                                   "{'name': 0, 'age': 0}" "N/A")))
     (trace (fst r)) /\
  disk (fst r) !! "README.md" =
    Some ("# Analysis of people" +:+ nl +:+ nl +:+
          "## Dataset Insights and Recommendations" +:+ nl +:+ nl +:+
          "### Business Report" +:+ nl +:+
          "Hello world" +:+
          nl +:+ nl +:+ "### Visualizations" +:+ nl).
Proof. vm_compute. repeat split; auto 10. Qed.

(** When [plt.close] raises after the boxplot was saved and its name
    appended, the error is logged and the image stays listed: it is on
    disk. *)
Example close_failure_keeps_saved_image :
  let r := run Samples.close_fails ∅ in
  In (SaveFig "people_boxplot.png" true) (trace (fst r)) /\
  In (Print "Error generating boxplot: boom") (trace (fst r)) /\
  In "people_boxplot.png" (image_paths (fst r)) /\
  disk (fst r) !! "people_boxplot.png" = Some "PNG people_boxplot.png".
Proof. vm_compute. repeat split; auto 10. Qed.

(** * Further properties of the script *)

(** ** The narrator's events *)

Section NarratorEvents.

Variable w : World.

(** What the narrator logs: the error line alone when the request cannot be
    built, and otherwise the one request, followed by at most an error
    line. *)
Lemma narrate_events name summary missing s :
  match corr_text w (correlation_matrix s) with
  | Raises e =>
      narrate w name summary missing s =
        (emit s [Print ("Error with LLM generation: " +:+ exn_msg e)], SysExit 1)
  | Returns ct =>
      exists rest o,
        narrate w name summary missing s =
          (emit s (HttpPost url (authorization w)
                     (data_for_api (prompt_text name summary missing ct)) :: rest), o) /\
        (rest = [] \/ exists m, rest = [Print m])
  end.
Proof.
  unfold narrate, try_except, bind, get, requests_post, print, log, lift,
    ret, raise, sys_exit.
  destruct (corr_text w (correlation_matrix s)) as [ct|e]; simpl; [|reflexivity].
  destruct (w_post w url (authorization w)
              (data_for_api (prompt_text name summary missing ct))) as [resp|e]; simpl.
  2: { eexists _, _. rewrite emit_emit. split; [reflexivity|]; eauto. }
  destruct (status_code resp =? 200); simpl.
  2: { eexists _, _. rewrite emit_emit. split; [reflexivity|]; eauto. }
  destruct (resp_content resp) as [content|e]; simpl.
  - eexists _, _. split; [reflexivity|]; eauto.
  - eexists _, _. rewrite emit_emit. split; [reflexivity|]; eauto.
Qed.

(** The same for the narrator and the reporter together: after the request
    come only printed lines and the opening of [README.md]. *)
Lemma narrate_report_events name profile s :
  exists evs,
    trace (fst (narrate_report w name profile s)) = trace s ++ evs /\
    match corr_text w (correlation_matrix s) with
    | Raises e => evs = [Print ("Error with LLM generation: " +:+ exn_msg e)]
    | Returns ct =>
        exists rest,
          evs = HttpPost url (authorization w)
                  (data_for_api (prompt_text name (fst profile) (snd profile) ct)) :: rest /\
          Forall (fun e => is_print e \/ is_open readme_path e) rest
    end.
Proof.
  unfold narrate_report, bind.
  pose proof (narrate_events name (fst profile) (snd profile) s) as H.
  destruct (corr_text w (correlation_matrix s)) as [ct|e].
  - destruct H as (rest & o & -> & Hrest).
    assert (Fr : Forall (fun e => is_print e \/ is_open readme_path e) rest).
    { destruct Hrest as [->|[m ->]]; all_events. }
    destruct o as [story|e|c]; simpl; try (eexists; split; [reflexivity|]; eauto).
    match goal with |- context [report w name story ?s2] =>
      destruct (report_frame w name story s2) as ((evs & -> & Fe) & _) end.
    simpl. rewrite <- app_assoc. eexists. split; [reflexivity|].
    eexists. split; [reflexivity|]. apply Forall_app. split; auto.
  - rewrite H. simpl. eauto.
Qed.

End NarratorEvents.

(** ** The whole trace, once more *)

Lemma count_posts_app a b : count_posts (a ++ b) = (count_posts a + count_posts b)%nat.
Proof. unfold count_posts. now rewrite List.filter_app, List.length_app. Qed.

Lemma count_posts_none (P : event -> Prop) evs :
  (forall e, P e -> ~ is_post e) -> Forall P evs -> count_posts evs = 0%nat.
Proof.
  intros HP F. induction F as [|e evs He _ IH]; [reflexivity|].
  unfold count_posts in *. simpl. apply HP in He.
  destruct e; simpl in *; auto. contradiction.
Qed.

Section RunEvents.

Variable w : World.

(** The events that follow the plots: none when the run stopped before the
    narrator, and otherwise the narrator's and the reporter's. *)
Lemma analyze_csv_events filename files :
  exists evs,
    trace (fst (analyze_csv w filename (initial_state files))) =
      trace (fst (load_profile_visualize w filename (initial_state files))) ++ evs /\
    (((forall profile,
         snd (load_profile_visualize w filename (initial_state files)) <> Ret profile) /\
      evs = []) \/
     exists profile,
       snd (load_profile_visualize w filename (initial_state files)) = Ret profile /\
       match corr_text w (correlation_matrix
                            (fst (load_profile_visualize w filename (initial_state files)))) with
       | Raises e => evs = [Print ("Error with LLM generation: " +:+ exn_msg e)]
       | Returns ct =>
           exists rest,
             evs = HttpPost url (authorization w)
                     (data_for_api (prompt_text (dataset_name_of filename)
                                                (fst profile) (snd profile) ct)) :: rest /\
             Forall (fun e => is_print e \/ is_open readme_path e) rest
       end).
Proof.
  destruct (analyze_csv_cases w filename (initial_state files))
    as [(profile & Hp & ->)|(Hn & -> & _)].
  - destruct (narrate_report_events w (dataset_name_of filename) profile
                (fst (load_profile_visualize w filename (initial_state files))))
      as (evs & T & Hevs).
    exists evs. split; [exact T|]. right. exists profile. auto.
  - exists []. split; [now rewrite app_nil_r|now left].
Qed.

(** No request is posted before the narrator. *)
Lemma no_post_before_narrator filename files u a body :
  ~ In (HttpPost u a body)
       (trace (fst (load_profile_visualize w filename (initial_state files)))).
Proof.
  destruct (load_profile_visualize_run w filename files)
    as (pre & vis & -> & Fp & Fv & _).
  rewrite in_app_iff. rewrite Forall_forall in Fp, Fv.
  intros [H|H]; apply list_elem_of_In in H;
    [apply Fp in H|apply Fv in H]; simpl in H; tauto.
Qed.

(** The script is [analyze_csv], or stops before it with one printed line. *)
Lemma run_cases files :
  run w files = analyze_csv w (nth 1 (w_argv w) EmptyString) (initial_state files) /\
    truthy (AIPROXY_TOKEN w) = true \/
  exists line, run w files = (emit (initial_state files) [Print line], SysExit 1).
Proof.
  unfold run, script, bind.
  destruct (truthy (AIPROXY_TOKEN w)); simpl; [|right; eauto].
  destruct (length (w_argv w) =? 2)%nat; simpl; [left; auto|right; eauto].
Qed.

End RunEvents.

(** X1: the script posts at most one request in a run (there is no retry). *)
Theorem at_most_one_request (w : World) (files : gmap string string) :
  (count_posts (trace (fst (run w files))) <= 1)%nat.
Proof.
  destruct (run_cases w files) as [[-> _]|[line ->]]; [|unfold count_posts; simpl; lia].
  destruct (analyze_csv_events w (nth 1 (w_argv w) EmptyString) files)
    as (evs & -> & Hevs).
  destruct (load_profile_visualize_run w (nth 1 (w_argv w) EmptyString) files)
    as (pre & vis & -> & Fp & Fv & _).
  rewrite !count_posts_app.
  assert (Hpre : count_posts pre = 0%nat)
    by (eapply count_posts_none; [|exact Fp]; intros []; simpl; tauto).
  assert (Hvis : count_posts vis = 0%nat)
    by (eapply count_posts_none; [|exact Fv]; intros []; simpl; tauto).
  rewrite Hpre, Hvis.
  destruct Hevs as [[_ ->]|(profile & _ & Hevs)]; [unfold count_posts; simpl; lia|].
  destruct (corr_text w _) as [ct|e].
  - destruct Hevs as (rest & -> & Fr).
    change (HttpPost ?u ?a ?b :: rest) with ([HttpPost u a b] ++ rest).
    rewrite count_posts_app.
    assert (Hrest : count_posts rest = 0%nat)
      by (eapply count_posts_none; [|exact Fr]; intros []; simpl; tauto).
    rewrite Hrest. unfold count_posts. simpl. lia.
  - subst evs. unfold count_posts. simpl. lia.
Qed.

(** X2: every request the script posts goes to the fixed URL, carries
    "Bearer " followed by the non-empty token of the environment, names the
    model gpt-4o-mini, asks for at most 1000 tokens, and holds two messages:
    the fixed system message and, as the user's, the prompt of lines 103-121
    filled in with the name of the dataset, the summary and the missing-value
    counts of the loaded dataset, and the correlation matrix as text ("N/A"
    when there is none). *)
Theorem request_shape (w : World) (files : gmap string string)
    (u a : string) (body : Request) :
  In (HttpPost u a body) (trace (fst (run w files))) ->
  let filename := nth 1 (w_argv w) EmptyString in
  u = "https://aiproxy.sanand.workers.dev/openai/v1/chat/completions" /\
  (exists c t, w_getenv w "AIPROXY_TOKEN" = Some (String c t) /\
               a = "Bearer " +:+ String c t) /\
  req_model body = "gpt-4o-mini" /\
  req_max_tokens body = 1000 /\
  exists data summary missing_values corr,
    loaded w filename = Some data /\
    w_describe w data = Returns summary /\
    w_isnull_sum w data = Returns missing_values /\
    corr_text w (correlation_matrix (fst (run w files))) = Returns corr /\
    req_messages body =
      [("system", "You are a helpful assistant.");
       ("user", prompt_text (dataset_name_of filename) summary missing_values corr)].
Proof.
  destruct (run_cases w files) as [[-> Ht]|[line ->]].
  2: { simpl. intros [H|[]]. discriminate H. }
  intros H filename. subst filename. revert H.
  destruct (analyze_csv_locals w (nth 1 (w_argv w) EmptyString) (initial_state files))
    as [_ ->].
  destruct (analyze_csv_events w (nth 1 (w_argv w) EmptyString) files)
    as (evs & -> & Hevs).
  rewrite in_app_iff. intros [H|H]; [now apply no_post_before_narrator in H|].
  destruct Hevs as [[_ ->]|(profile & Hp & Hevs)]; [destruct H|].
  destruct (load_profile_visualize_cases w (nth 1 (w_argv w) EmptyString)
              (initial_state files))
    as [(data & sm & mv & Hl & Hd & Hm & E)|(o & E & Hn & _)];
    rewrite E in Hp; simpl in Hp; [|now apply Hn in Hp].
  injection Hp as <-. cbn [fst snd] in Hevs.
  destruct (corr_text w _) as [ct|e].
  - destruct Hevs as (rest & -> & Fr). destruct H as [H|H].
    + injection H as <- <- <-. split; [reflexivity|]. split.
      { unfold authorization, AIPROXY_TOKEN in *.
        destruct (w_getenv w "AIPROXY_TOKEN") as [[|c t]|]; try discriminate Ht.
        exists c, t. auto. }
      split; [reflexivity|]. split; [reflexivity|].
      exists data, sm, mv, ct. auto.
    + rewrite Forall_forall in Fr. apply list_elem_of_In, Fr in H. simpl in H. tauto.
  - subst evs. destruct H as [H|[]]. discriminate H.
Qed.

Lemma request_shape_witness :
  "https://aiproxy.sanand.workers.dev/openai/v1/chat/completions" =
    "https://aiproxy.sanand.workers.dev/openai/v1/chat/completions" /\
  (exists c t, w_getenv Samples.text_only "AIPROXY_TOKEN" = Some (String c t) /\
               "Bearer secret" = "Bearer " +:+ String c t) /\
  req_model (data_for_api (prompt_text "people" "{'age': {'count': 2.0}}"
                                       "{'name': 0, 'age': 0}" "N/A")) = "gpt-4o-mini" /\
  req_max_tokens (data_for_api (prompt_text "people" "{'age': {'count': 2.0}}"
                                            "{'name': 0, 'age': 0}" "N/A")) = 1000 /\
  exists data summary missing_values corr,
    loaded Samples.text_only "data/people.csv" = Some data /\
    w_describe Samples.text_only data = Returns summary /\
    w_isnull_sum Samples.text_only data = Returns missing_values /\
    corr_text Samples.text_only
      (correlation_matrix (fst (run Samples.text_only ∅))) = Returns corr /\
    req_messages (data_for_api (prompt_text "people" "{'age': {'count': 2.0}}"
                                            "{'name': 0, 'age': 0}" "N/A")) =
      [("system", "You are a helpful assistant.");
       ("user", prompt_text (dataset_name_of "data/people.csv")
                            summary missing_values corr)].
Proof.
  apply (request_shape Samples.text_only ∅).
  vm_compute. auto 10.
Defined.

(** X3: a token that is set to the empty string counts as missing: the
    process prints the missing-token error and exits with status 1 before
    anything else. *)
Theorem empty_token_counts_as_missing (w : World) (files : gmap string string) :
  w_getenv w "AIPROXY_TOKEN" = Some EmptyString ->
  run w files =
    (emit (initial_state files)
          [Print "Error: AIPROXY_TOKEN environment variable not set."],
     SysExit 1).
Proof.
  intros H. apply falsy_token_exits. unfold AIPROXY_TOKEN. now rewrite H.
Qed.

Lemma empty_token_counts_as_missing_witness :
  run (Samples.world (Some EmptyString) Samples.argv1 (fun _ => Returns Samples.people)
         (fun _ => Returns tt) (Samples.ok200 "Hello world") (fun _ => Returns tt)) ∅ =
    (emit (initial_state ∅)
          [Print "Error: AIPROXY_TOKEN environment variable not set."],
     SysExit 1).
Proof.
  apply (empty_token_counts_as_missing
           (Samples.world (Some EmptyString) Samples.argv1 (fun _ => Returns Samples.people)
              (fun _ => Returns tt) (Samples.ok200 "Hello world") (fun _ => Returns tt)) ∅).
  reflexivity.
Defined.

(** X4: the profiling calls of lines 51-52 are outside every [try]: when
    [describe] or [isnull().sum()] raises on the loaded dataset, the
    exception leaves [analyze_csv] uncaught, in the state the loader left:
    no plot was attempted, no request posted, no file written. *)
Theorem profiling_failure_is_uncaught (w : World) (filename : string)
    (files : gmap string string) (data : DataFrame) (e : exn) :
  loaded w filename = Some data ->
  w_describe w data = Raises e \/
    ((exists summary, w_describe w data = Returns summary) /\
     w_isnull_sum w data = Raises e) ->
  analyze_csv w filename (initial_state files) =
    (fst (load_dataset w filename (initial_state files)), Raise e) /\
  exit_status (snd (analyze_csv w filename (initial_state files))) = 1 /\
  (forall ev, In ev (trace (fst (analyze_csv w filename (initial_state files)))) ->
     is_print ev \/ is_read filename ev) /\
  disk (fst (analyze_csv w filename (initial_state files))) = files.
Proof.
  intros Hl Hfail.
  assert (E : analyze_csv w filename (initial_state files) =
              (fst (load_dataset w filename (initial_state files)), Raise e)).
  { apply (load_dataset_loaded w filename (initial_state files)) in Hl.
    unfold analyze_csv, load_profile_visualize, bind.
    destruct (load_dataset w filename (initial_state files)) as [sl o].
    simpl in Hl. subst o. unfold lift.
    destruct Hfail as [->|[[summary ->] ->]]; reflexivity. }
  rewrite E. simpl.
  destruct (load_dataset_frame w filename (initial_state files))
    as ((evs & T & F) & D & _).
  repeat split; auto.
  - intros ev Hin. rewrite T in Hin. simpl in Hin.
    rewrite Forall_forall in F. now apply F, list_elem_of_In.
  - apply map_eq. intros p. apply D. unfold nowhere. tauto.
Qed.

Lemma profiling_failure_is_uncaught_witness :
  let w :=
    {| w_getenv := w_getenv Samples.happy; w_argv := Samples.argv1;
       w_read_csv := w_read_csv Samples.happy;
       w_describe := fun _ => Raises Samples.boom;
       w_isnull_sum := w_isnull_sum Samples.happy;
       w_figure := w_figure Samples.happy; w_corr := w_corr Samples.happy;
       w_draw := w_draw Samples.happy; w_title := w_title Samples.happy;
       w_savefig := w_savefig Samples.happy; w_close := w_close Samples.happy;
       w_to_dict := w_to_dict Samples.happy; w_post := w_post Samples.happy;
       w_open := w_open Samples.happy; w_write := w_write Samples.happy;
       w_write_partial := w_write_partial Samples.happy;
       w_fclose := w_fclose Samples.happy;
       w_fclose_partial := w_fclose_partial Samples.happy |} in
  analyze_csv w "data/people.csv" (initial_state ∅) =
    (fst (load_dataset w "data/people.csv" (initial_state ∅)), Raise Samples.boom) /\
  exit_status (snd (analyze_csv w "data/people.csv" (initial_state ∅))) = 1 /\
  (forall ev, In ev (trace (fst (analyze_csv w "data/people.csv" (initial_state ∅)))) ->
     is_print ev \/ is_read "data/people.csv" ev) /\
  disk (fst (analyze_csv w "data/people.csv" (initial_state ∅))) = ∅.
Proof.
  intros w.
  apply (profiling_failure_is_uncaught w "data/people.csv" ∅ Samples.people Samples.boom).
  - reflexivity.
  - left. reflexivity.
Defined.



(** X6: a run writes no file but the three images named after the dataset and
    [README.md]: every other file of the directory is as it was. *)
Theorem only_images_and_readme_are_written (w : World) (files : gmap string string)
    (p : string) :
  ~ In p (images (dataset_name_of (nth 1 (w_argv w) EmptyString))) ->
  p <> readme_path ->
  disk (fst (run w files)) !! p = files !! p.
Proof.
  intros Hi Hr. destruct (run_cases w files) as [[-> _]|[line ->]]; [|reflexivity].
  destruct (analyze_csv_run w (nth 1 (w_argv w) EmptyString) files)
    as (pre & vis & post & _ & _ & _ & _ & _ & _ & _ & _ & Other).
  now apply Other.
Qed.

Lemma only_images_and_readme_are_written_witness :
  disk (fst (run Samples.happy {[ "notes.txt" := "keep" ]})) !! "notes.txt" =
    ({[ "notes.txt" := "keep" ]} : gmap string string) !! "notes.txt".
Proof.
  apply (only_images_and_readme_are_written Samples.happy {[ "notes.txt" := "keep" ]}).
  - vm_compute. intros H. repeat (destruct H as [H|H]; [discriminate H|]). exact H.
  - discriminate.
Defined.

(** X7: the outputs go to the current directory, whatever directory the input
    is in: the name of every file the script saves or opens for writing
    holds no '/'. *)
Theorem outputs_in_current_directory (w : World) (filename : string)
    (files : gmap string string) (f : string) (b : bool) :
  In (SaveFig f b) (trace (fst (analyze_csv w filename (initial_state files)))) \/
  In (OpenW f b) (trace (fst (analyze_csv w filename (initial_state files)))) ->
  contains "/"%char f = false.
Proof.
  destruct (analyze_csv_run w filename files)
    as (pre & vis & post & -> & Fp & Fv & Fq & _).
  rewrite Forall_forall in Fp, Fv, Fq.
  assert (Himg : forall g, In g (images (dataset_name_of filename)) ->
                           contains "/"%char g = false).
  { pose proof (dataset_name_no_sep filename) as Hn. unfold sep in Hn.
    intros g [<-|[<-|[<-|[]]]];
      unfold correlation_image, missing_values_image, boxplot_image;
      rewrite contains_app; now rewrite Hn. }
  rewrite !in_app_iff.
  intros [[H|[H|H]]|[H|[H|H]]]; apply list_elem_of_In in H;
    first [apply Fp in H | apply Fv in H | apply Fq in H]; simpl in H;
    try tauto.
  - destruct H as [[]|H]. now apply Himg.
  - destruct H as [[]|[[]| ->]]. reflexivity.
Qed.

Lemma outputs_in_current_directory_witness :
  contains "/"%char "people_boxplot.png" = false.
Proof.
  apply (outputs_in_current_directory Samples.happy "data/people.csv" ∅
           "people_boxplot.png" true).
  left. vm_compute. auto 10.
Defined.

(** X8: a dataset whose numeric subset is empty (no float64 or int64 column,
    or no row) gets one warning and no plot: no figure is saved,
    [image_paths] stays empty, [correlation_matrix] stays null, and the run
    goes on to post a prompt that carries 'N/A' for the matrix. *)
Theorem empty_numeric_subset_skips_plots (w : World) (filename : string)
    (files : gmap string string) (data : DataFrame) :
  reaches_plots w filename data ->
  empty (select_dtypes data) = true ->
  image_paths (fst (analyze_csv w filename (initial_state files))) = [] /\
  correlation_matrix (fst (analyze_csv w filename (initial_state files))) = None /\
  (forall f b, ~ In (SaveFig f b)
                    (trace (fst (analyze_csv w filename (initial_state files))))) /\
  In (Print "Warning: No numeric columns found in the dataset. Skipping correlation analysis, boxplot, and heatmaps.")
     (trace (fst (analyze_csv w filename (initial_state files)))) /\
  exists summary missing_values,
    In (HttpPost url (authorization w)
          (data_for_api (prompt_text (dataset_name_of filename)
                                     summary missing_values "N/A")))
       (trace (fst (analyze_csv w filename (initial_state files)))).
Proof.
  intros Hr He. pose proof Hr as (Hl & _ & _).
  destruct (analyze_csv_locals w filename (initial_state files)) as [EI EC].
  destruct (analyze_csv_events w filename files) as (evs & T & Hevs).
  destruct (load_profile_visualize_cases w filename (initial_state files))
    as [(data' & sm & mv & Hl' & Hd & Hm & E)|(o & _ & _ & Hn)].
  2: { now apply Hn in Hr. }
  assert (data' = data) by congruence. subst data'.
  rewrite (visualize_not_numeric w _ data _ He) in E.
  rewrite EI, EC, T, E in *. simpl in *.
  destruct (load_dataset_frame w filename (initial_state files))
    as ((pre & Tl & Fl) & _).
  simpl in Tl. rewrite Tl in *. rewrite Forall_forall in Fl.
  destruct Hevs as [[Hn _]|(profile & Hp & (rest & -> & Fr))].
  { exfalso. now eapply Hn. }
  rewrite Forall_forall in Fr.
  repeat split; auto.
  - intros f b. rewrite !in_app_iff. simpl.
    intros [[H|[H|[]]]|[H|H]]; try discriminate H.
    + apply list_elem_of_In, Fl in H. simpl in H. tauto.
    + apply list_elem_of_In, Fr in H. simpl in H. tauto.
  - rewrite !in_app_iff. simpl. auto.
  - injection Hp as <-. exists sm, mv. rewrite !in_app_iff. simpl. auto.
Qed.

Lemma empty_numeric_subset_skips_plots_witness :
  image_paths (fst (analyze_csv Samples.text_only "data/people.csv" (initial_state ∅))) = [] /\
  correlation_matrix
    (fst (analyze_csv Samples.text_only "data/people.csv" (initial_state ∅))) = None /\
  (forall f b, ~ In (SaveFig f b)
                    (trace (fst (analyze_csv Samples.text_only "data/people.csv"
                                             (initial_state ∅))))) /\
  In (Print "Warning: No numeric columns found in the dataset. Skipping correlation analysis, boxplot, and heatmaps.")
     (trace (fst (analyze_csv Samples.text_only "data/people.csv" (initial_state ∅)))) /\
  exists summary missing_values,
    In (HttpPost url (authorization Samples.text_only)
          (data_for_api (prompt_text (dataset_name_of "data/people.csv")
                                     summary missing_values "N/A")))
       (trace (fst (analyze_csv Samples.text_only "data/people.csv" (initial_state ∅)))).
Proof.
  apply (empty_numeric_subset_skips_plots Samples.text_only "data/people.csv" ∅
           Samples.names).
  - unfold reaches_plots. split; [reflexivity|split; eexists; reflexivity].
  - reflexivity.
Defined.

(** ** Which images are saved *)

Section SavedImages.

Variable w : World.






End SavedImages.



(** ** What the printed lines tell *)




Section Lines.

Variable w : World.





End Lines.





(** X12: whatever happens, [README.md] is either as it was before the run or
    holds the beginning of the report for the narrative of the run: of the
    text made of the heading, the section headings, the narrative, the
    visualizations heading and the image lines, in this order.  A failed
    write or a failed close cuts the report short, possibly in the middle of
    a line, and nothing else is ever written to the file. *)
Theorem readme_is_old_or_a_prefix (w : World) (filename : string)
    (files : gmap string string) :
  let final := fst (analyze_csv w filename (initial_state files)) in
  disk final !! readme_path = files !! readme_path \/
  exists summary missing_values cm story text,
    narrative_is w (dataset_name_of filename) summary missing_values cm story /\
    begins_with
      (join (readme_chunks (dataset_name_of filename) story (image_paths final)))
      text = true /\
    disk final !! readme_path = Some text.
Proof.
  intros final. subst final.
  destruct (readme_untouched_by_plots w filename files) as [Hd _].
  destruct (analyze_csv_locals w filename (initial_state files)) as [-> _].
  destruct (analyze_csv_cases w filename (initial_state files))
    as [(profile & _ & ->)|(_ & -> & _)]; [|now left].
  destruct (narrate_report_cases w (dataset_name_of filename) profile
              (fst (load_profile_visualize w filename (initial_state files))))
    as [(_ & evs & -> & _)|(story & ct & Hn & _ & ->)]; [now left|].
  match goal with |- context [report w ?n story ?s2] =>
    destruct (report_run w n story s2)
      as [(e & _ & ->)|(text & _ & [rest Hr] & [[_ ->]|[e ->]])] end;
    [now left|right..]; eexists _, _, _, story, text; simpl;
    (split; [exact Hn|]); (split; [|apply lookup_insert_eq]);
    pose proof (str_prefix_app text rest) as Hq; rewrite <- Hr in Hq; exact Hq.
Qed.

(** A close of [README.md] that fails after 30 characters reached the disk:
    the file ends in the middle of the second heading. *)
Example readme_cut_by_failed_close :
  let r := run Samples.flush_fails ∅ in
  snd r = SysExit 1 /\
  disk (fst r) !! readme_path =
    Some ("# Analysis of people" +:+ nl +:+ nl +:+ "## Datas").
Proof. vm_compute. auto. Qed.

(** ** The name of the dataset *)

Section DatasetName.

Lemma rfind_from_last c a b i :
  0 <= i -> contains c b = false ->
  rfind_from c (a +:+ String c b) i = i + Z.of_nat (String.length a).
Proof.
  intros Hi Hb. revert i Hi. induction a as [|x a IH]; intros i Hi.
  - rewrite app_empty_l. cbn [rfind_from String.length].
    destruct (rfind_from_range c b (i + 1) ltac:(lia)) as [[-> _]|[_ Hc]];
      [|congruence].
    change (0 <=? -1) with false. cbv iota.
    rewrite Ascii.eqb_refl. simpl. lia.
  - rewrite app_cons. cbn [rfind_from String.length].
    rewrite IH by lia.
    replace (0 <=? i + 1 + Z.of_nat (String.length a)) with true
      by (symmetry; apply Z.leb_le; lia).
    lia.
Qed.

Lemma drop_past a c b : drop (S (String.length a)) (a +:+ String c b) = b.
Proof. induction a as [|x a IH]; [reflexivity|]. rewrite app_cons. exact IH. Qed.

Lemma take_app_length a b : take (String.length a) (a +:+ b) = a.
Proof.
  induction a as [|x a IH]; [now destruct b|].
  rewrite app_cons. simpl. now rewrite IH.
Qed.

Lemma basename_of_path dir base :
  contains sep base = false -> basename (dir +:+ String sep base) = base.
Proof.
  intros H. unfold basename, rfind. rewrite rfind_from_last by (auto; lia).
  replace (Z.to_nat (0 + Z.of_nat (String.length dir) + 1))
    with (S (String.length dir)) by lia.
  apply drop_past.
Qed.

Lemma splitext_simple name ext :
  name <> EmptyString ->
  contains sep name = false -> contains extsep name = false ->
  contains sep ext = false -> contains extsep ext = false ->
  splitext (name +:+ String extsep ext) = (name, String extsep ext).
Proof.
  intros Hne Hs Hd Hse Hde. unfold splitext.
  assert (Hsep : rfind sep (name +:+ String extsep ext) = -1).
  { apply rfind_absent. rewrite contains_app, Hs. simpl. exact Hse. }
  assert (Hdot : rfind extsep (name +:+ String extsep ext) =
                 Z.of_nat (String.length name)).
  { unfold rfind. rewrite rfind_from_last by (auto; lia). lia. }
  rewrite Hsep, Hdot.
  destruct name as [|x name]; [contradiction|].
  replace (-1 <? Z.of_nat (String.length (String x name))) with true
    by (symmetry; apply Z.ltb_lt; lia).
  replace (Z.to_nat (Z.of_nat (String.length (String x name)) - (-1 + 1)))
    with (S (String.length name)) by (simpl; lia).
  cbn [splitext_loop]. change (Z.to_nat (-1 + 1)) with 0%nat.
  unfold char_at. rewrite app_cons. cbn [drop take].
  assert (Hx : Ascii.eqb x extsep = false).
  { simpl in Hd. destruct (Ascii.eqb x extsep); [discriminate|reflexivity]. }
  cbn [String.eqb]. rewrite Hx. cbn [negb].
  rewrite Nat2Z.id. f_equal.
  - rewrite <- app_cons. apply take_app_length.
  - rewrite <- app_cons.
    clear. generalize (String x name). intros a.
    induction a as [|y a IH]; [reflexivity|]. rewrite app_cons. exact IH.
Qed.

End DatasetName.

(** X13: for an input [dir/name.ext], where [name] is not empty and neither
    [name] nor [ext] holds a '/' or a '.', the dataset is called [name],
    whatever the directory; the same for [name.ext] in the current
    directory. *)
Theorem dataset_name_of_path (dir name ext : string) :
  name <> EmptyString ->
  contains "/"%char name = false -> contains "."%char name = false ->
  contains "/"%char ext = false -> contains "."%char ext = false ->
  dataset_name_of (dir +:+ "/" +:+ name +:+ "." +:+ ext) = name /\
  dataset_name_of (name +:+ "." +:+ ext) = name.
Proof.
  intros Hne Hs Hd Hse Hde.
  assert (Hb : contains sep (name +:+ String extsep ext) = false).
  { rewrite contains_app. unfold sep. rewrite Hs. simpl. exact Hse. }
  unfold dataset_name_of. split.
  - change (dir +:+ "/" +:+ name +:+ "." +:+ ext)
      with (dir +:+ String sep (name +:+ String extsep ext)).
    rewrite basename_of_path by exact Hb.
    now rewrite splitext_simple.
  - change (name +:+ "." +:+ ext) with (name +:+ String extsep ext).
    rewrite basename_id by exact Hb.
    now rewrite splitext_simple.
Qed.

Lemma dataset_name_of_path_witness :
  dataset_name_of ("/srv/data.d" +:+ "/" +:+ "goodreads" +:+ "." +:+ "csv") = "goodreads" /\
  dataset_name_of ("goodreads" +:+ "." +:+ "csv") = "goodreads".
Proof.
  apply (dataset_name_of_path "/srv/data.d" "goodreads" "csv");
    [discriminate|reflexivity..].
Defined.

(** ** Runs in two directories *)

Section Uniform.

Variable R : State -> State -> Prop.

Lemma uniform_ret {A} (a : A) : uniform R (ret a).
Proof. intros s1 s2 H. auto. Qed.

Lemma uniform_raise {A} e : uniform R (@raise A e).
Proof. intros s1 s2 H. auto. Qed.

Lemma uniform_sys_exit {A} c : uniform R (@sys_exit A c).
Proof. intros s1 s2 H. auto. Qed.

Lemma uniform_lift {A} (r : result A) : uniform R (lift r).
Proof. destruct r; [apply uniform_ret | apply uniform_raise]. Qed.

Lemma uniform_bind {A B} (m : M A) (k : A -> M B) :
  uniform R m -> (forall a, uniform R (k a)) -> uniform R (bind m k).
Proof.
  intros Hm Hk s1 s2 H. unfold bind. destruct (Hm s1 s2 H) as [Ho Hs].
  destruct (m s1) as [t1 o1], (m s2) as [t2 o2]. simpl in *. subst o2.
  destruct o1 as [a|e|c]; auto. now apply Hk.
Qed.

Lemma uniform_try_except {A} (body : M A) handler :
  uniform R body -> (forall e, uniform R (handler e)) ->
  uniform R (try_except body handler).
Proof.
  intros Hb Hh s1 s2 H. unfold try_except. destruct (Hb s1 s2 H) as [Ho Hs].
  destruct (body s1) as [t1 o1], (body s2) as [t2 o2]. simpl in *. subst o2.
  destruct o1 as [a|e|c]; auto. now apply Hh.
Qed.

Lemma uniform_try_except_decode {A} (body handler : M A) :
  uniform R body -> uniform R handler ->
  uniform R (try_except_decode body handler).
Proof.
  intros Hb Hh s1 s2 H. unfold try_except_decode. destruct (Hb s1 s2 H) as [Ho Hs].
  destruct (body s1) as [t1 o1], (body s2) as [t2 o2]. simpl in *. subst o2.
  destruct o1 as [a|[[] msg]|c]; auto.
Qed.

Lemma uniform_for_each {A} (l : list A) body :
  (forall x, uniform R (body x)) -> uniform R (for_each l body).
Proof.
  intros Hb. induction l as [|x l IH]; simpl.
  - apply uniform_ret.
  - apply uniform_bind; auto.
Qed.

End Uniform.

Section Alike.

Variables (w : World) (d1 d2 : gmap string string) (opened : bool).

Local Abbreviation same := (uniform (alike d1 d2 opened)).

Lemma same_log e : same (log e).
Proof.
  intros s1 s2 (T & I & C & m & D1 & D2 & O). split; [reflexivity|].
  unfold alike. simpl. rewrite T. eauto 10.
Qed.

Lemma same_set_image_paths l : same (set_image_paths l).
Proof.
  intros s1 s2 (T & I & C & m & D1 & D2 & O). split; [reflexivity|].
  unfold alike. simpl. eauto 10.
Qed.

Lemma same_set_correlation_matrix c : same (set_correlation_matrix c).
Proof.
  intros s1 s2 (T & I & C & m & D1 & D2 & O). split; [reflexivity|].
  unfold alike. simpl. eauto 10.
Qed.

Lemma same_get_image_paths : same (get image_paths).
Proof.
  intros s1 s2 H. split; [|exact H]. destruct H as (_ & I & _). simpl. now rewrite I.
Qed.

Lemma same_get_correlation_matrix : same (get correlation_matrix).
Proof.
  intros s1 s2 H. split; [|exact H]. destruct H as (_ & _ & C & _). simpl. now rewrite C.
Qed.

Lemma same_insert path data :
  same (d <- get disk ;; set_disk (<[path := data]> d)).
Proof.
  intros s1 s2 (T & I & C & m & D1 & D2 & O). split; [reflexivity|].
  unfold alike. simpl. repeat split; auto.
  exists (<[path := data]> m). rewrite D1, D2, !insert_union_l.
  repeat split; auto. intros Ho. specialize (O Ho).
  destruct (decide (path = readme_path)) as [->|Hne].
  - rewrite lookup_insert_eq. eauto.
  - now rewrite lookup_insert_ne.
Qed.

Lemma same_pd_read_csv filename enc : same (pd_read_csv w filename enc).
Proof.
  apply uniform_bind; [apply same_log|]. intros _. apply uniform_lift.
Qed.

Lemma same_plt_savefig filename : same (plt_savefig w filename).
Proof.
  unfold plt_savefig. destruct (w_savefig w filename).
  - apply uniform_bind; [apply same_log|]. intros _. apply same_insert.
  - apply uniform_bind; [apply same_log|]. intros _. apply uniform_raise.
Qed.

Lemma same_requests_post a body : same (requests_post w a body).
Proof.
  apply uniform_bind; [apply same_log|]. intros _. apply uniform_lift.
Qed.

End Alike.

Section AlikeOpened.

Variables (w : World) (d1 d2 : gmap string string).

(** Once [README.md] is opened, what it holds is what the run wrote. *)
Lemma same_file_content : uniform (alike d1 d2 true) (file_content readme_path).
Proof.
  intros s1 s2 H. split; [|exact H].
  destruct H as (_ & _ & _ & m & D1 & D2 & O).
  destruct (O eq_refl) as [c Hc].
  unfold file_content, bind, get, ret. simpl.
  rewrite D1, D2, !(lookup_union_Some_l _ _ _ _ Hc). reflexivity.
Qed.

Lemma same_f_write data : uniform (alike d1 d2 true) (f_write w readme_path data).
Proof.
  unfold f_write. apply uniform_bind; [apply same_file_content|]. intros content.
  destruct (w_write w readme_path content data).
  - apply same_insert.
  - apply uniform_bind; [apply same_insert|]. intros _. apply uniform_raise.
Qed.

Lemma same_f_close : uniform (alike d1 d2 true) (f_close w readme_path).
Proof.
  unfold f_close. apply uniform_bind; [apply same_file_content|]. intros content.
  destruct (w_fclose w readme_path content).
  - apply uniform_ret.
  - apply uniform_bind; [apply same_insert|]. intros _. apply uniform_raise.
Qed.

Lemma alike_forget s1 s2 : alike d1 d2 true s1 s2 -> alike d1 d2 false s1 s2.
Proof.
  intros (T & I & C & m & D1 & D2 & _). repeat split; auto.
  exists m. repeat split; auto. discriminate.
Qed.

Lemma with_open_w_opened path body s :
  w_open w path = Returns tt ->
  with_open_w w path body s =
    let (s1, o) := body (set_file (emit s [OpenW path true]) path EmptyString) in
    match f_close w path s1 with
    | (s2, Ret _) => (s2, o)
    | (s2, Raise e) => (s2, Raise e)
    | (s2, SysExit c) => (s2, SysExit c)
    end.
Proof. intros H. unfold with_open_w, open_w, bind. rewrite H. reflexivity. Qed.

Lemma same_with_open_w body :
  uniform (alike d1 d2 true) body ->
  uniform (alike d1 d2 false) (with_open_w w readme_path body).
Proof.
  intros Hb s1 s2 H.
  destruct (w_open w readme_path) as [[]|e] eqn:Eo.
  - rewrite !(with_open_w_opened _ _ _ Eo).
    assert (Ho : alike d1 d2 true
                   (set_file (emit s1 [OpenW readme_path true]) readme_path EmptyString)
                   (set_file (emit s2 [OpenW readme_path true]) readme_path EmptyString)).
    { destruct H as (T & I & C & m & D1 & D2 & _).
      unfold alike. simpl. rewrite T. repeat split; auto.
      exists (<[readme_path := EmptyString]> m).
      rewrite D1, D2, !insert_union_l. repeat split; auto.
      intros _. rewrite lookup_insert_eq. eauto. }
    destruct (Hb _ _ Ho) as [Ebody Hs].
    destruct (body (set_file (emit s1 [OpenW readme_path true]) readme_path EmptyString))
      as [t1 o1].
    destruct (body (set_file (emit s2 [OpenW readme_path true]) readme_path EmptyString))
      as [t2 o2].
    simpl in Ebody, Hs. subst o2.
    destruct (same_f_close _ _ Hs) as [Ec Hc].
    destruct (f_close w readme_path t1) as [u1 c1],
             (f_close w readme_path t2) as [u2 c2].
    simpl in Ec, Hc. subst c2. apply alike_forget in Hc.
    destruct c1; simpl; auto.
  - unfold with_open_w, open_w. rewrite Eo.
    unfold bind, log, raise. simpl. split; [reflexivity|].
    destruct H as (T & I & C & m & D1 & D2 & O).
    unfold alike. simpl. rewrite T. eauto 10.
Qed.

End AlikeOpened.

Ltac uniform_step :=
  lazymatch goal with
  | |- uniform _ (ret _) => apply uniform_ret
  | |- uniform _ (raise _) => apply uniform_raise
  | |- uniform _ (sys_exit _) => apply uniform_sys_exit
  | |- uniform _ (lift _) => apply uniform_lift
  | |- uniform _ (get image_paths) => apply same_get_image_paths
  | |- uniform _ (get correlation_matrix) => apply same_get_correlation_matrix
  | |- uniform _ (bind _ _) => apply uniform_bind; [|intros ?]
  | |- uniform _ (try_except_decode _ _) => apply uniform_try_except_decode
  | |- uniform _ (try_except _ _) => apply uniform_try_except; [|intros ?]
  | |- uniform _ (for_each _ _) => apply uniform_for_each; intros ?
  | |- uniform _ (print _) => apply same_log
  | |- uniform _ (log _) => apply same_log
  | |- uniform _ (pd_read_csv _ _ _) => apply same_pd_read_csv
  | |- uniform _ (plt_savefig _ _) => apply same_plt_savefig
  | |- uniform _ (requests_post _ _ _) => apply same_requests_post
  | |- uniform _ (with_open_w _ _ _) => apply same_with_open_w
  | |- uniform _ (f_write _ _ _) => apply same_f_write
  | |- uniform _ (set_image_paths _) => apply same_set_image_paths
  | |- uniform _ (set_correlation_matrix _) => apply same_set_correlation_matrix
  | |- uniform _ (if ?b then _ else _) => destruct b
  | |- uniform _ (match ?x with _ => _ end) => destruct x
  end.

Section Directories.

Variable w : World.

Lemma script_uniform d1 d2 : uniform (alike d1 d2 false) (script w).
Proof.
  unfold script, analyze_csv, load_profile_visualize, narrate_report, load_dataset,
    visualize, correlation_heatmap, missing_values_heatmap, boxplot, narrate,
    report, write_readme.
  repeat uniform_step.
Qed.

End Directories.

(** Two runs of the script, started on the files [files1] and [files2]. *)
Lemma runs_alike (w : World) (files1 files2 : gmap string string) :
  snd (run w files1) = snd (run w files2) /\
  alike files1 files2 false (fst (run w files1)) (fst (run w files2)).
Proof.
  apply (script_uniform w files1 files2 (initial_state files1) (initial_state files2)).
  unfold alike. simpl. repeat split; auto.
  exists ∅. rewrite !(left_id_L ∅ (∪)). repeat split; auto. discriminate.
Qed.

(** X14: the script never reads what it writes, and overwrites without asking:
    started on the same answers of the world in two directories, it prints
    the same lines, ends with the same status, lists the same images, and
    leaves in both the same files over whatever was there. *)
Theorem run_ignores_old_files (w : World) (files1 files2 : gmap string string) :
  snd (run w files1) = snd (run w files2) /\
  trace (fst (run w files1)) = trace (fst (run w files2)) /\
  image_paths (fst (run w files1)) = image_paths (fst (run w files2)) /\
  exists written : gmap string string,
    disk (fst (run w files1)) = written ∪ files1 /\
    disk (fst (run w files2)) = written ∪ files2.
Proof.
  destruct (runs_alike w files1 files2) as (Ho & T & I & _ & m & D1 & D2 & _).
  repeat split; auto. eauto.
Qed.

(** X15: running the script again on the directory it left changes nothing:
    the same lines, the same status, the same files. *)
Theorem rerun_is_idempotent (w : World) (files : gmap string string) :
  snd (run w (disk (fst (run w files)))) = snd (run w files) /\
  trace (fst (run w (disk (fst (run w files))))) = trace (fst (run w files)) /\
  disk (fst (run w (disk (fst (run w files))))) = disk (fst (run w files)).
Proof.
  destruct (runs_alike w (disk (fst (run w files))) files)
    as (Ho & T & _ & _ & m & D1 & D2 & _).
  repeat split; auto.
  rewrite D1. rewrite D2 at 2. rewrite D2.
  now rewrite (assoc_L (∪)), (idemp_L (∪)).
Qed.

(** X16: every image that ends up in [image_paths] is on disk at the end of
    the run, with the bytes [plt.savefig] saved, whether the run succeeded
    or not: the report never embeds an image that is not there. *)
Theorem listed_images_are_on_disk (w : World) (filename : string)
    (files : gmap string string) (f : string) :
  In f (image_paths (fst (analyze_csv w filename (initial_state files)))) ->
  exists bytes,
    w_savefig w f = Returns bytes /\
    disk (fst (analyze_csv w filename (initial_state files))) !! f = Some bytes.
Proof.
  destruct (analyze_csv_run w filename files)
    as (pre & vis & post & _ & _ & _ & _ & -> & _ & _ & Saved & _).
  apply Saved.
Qed.

Lemma listed_images_are_on_disk_witness :
  exists bytes,
    w_savefig Samples.story_unwritable "people_boxplot.png" = Returns bytes /\
    disk (fst (analyze_csv Samples.story_unwritable "data/people.csv" (initial_state ∅)))
      !! "people_boxplot.png" = Some bytes.
Proof.
  apply (listed_images_are_on_disk Samples.story_unwritable "data/people.csv" ∅
           "people_boxplot.png").
  vm_compute. auto 10.
Defined.

Section ExitStatus.

Variable w : World.


End ExitStatus.

